(** * The claude-mem client and its plugin hook

    A shallow embedding of [ClaudeMemClient] (the HTTP client of the
    claude-mem REST API) and of the [afterAgentResponse] hook and the
    three tools of the memory-claude-mem extension, with the properties
    of their documented contract.

    Conventions of the embedding:
    - a JavaScript value that came out of [JSON.parse] is a [json] tree;
      [undefined] is [None] of an [option];
    - a [string] stands for a JavaScript string, one character per code
      unit;
    - [fetch] and [console] are effects: a computation runs against a
      [server] (what the network answers to each request, given the
      requests seen so far) and extends a trace of events, most recent
      first; a JavaScript [throw] is the [Throw] completion;
    - a [URLSearchParams] object is its list of name/value pairs, in
      insertion order; the body given to [JSON.stringify] is the tree it
      serialises;
    - the tool handlers of the plugin receive whatever value the client
      hands on, so the operations they apply to it ([Dyn]) are defined
      on every [json] tree and throw where JavaScript does. *)

From Stdlib Require Import String Ascii List ZArith Bool Lia DecimalString.
Import ListNotations.
Local Open Scope string_scope.
Local Open Scope list_scope.

(** ** JavaScript values *)

Module Js.

(** A TypeScript [number] as the options carry it: an integer or NaN. *)
Inductive number : Type :=
| Num (z : Z)
| NaN.

#[warnings="-register-all"]
Inductive json : Type :=
| JNull
| JBool (b : bool)
| JNum (z : Z)
| JStr (s : string)
| JArr (xs : list json)
| JObj (fields : list (string * json)).

(** What a [catch] clause can receive: an [Error] instance (with its
    constructor name and message) or any other thrown value. *)
Inductive exn : Type :=
| JsError (name message : string)
| Thrown (v : json).

(** [String(z)] for an integer. *)
Definition String_of_Z (z : Z) : string :=
  NilZero.string_of_int (Z.to_int z).

(** [String(n)]. *)
Definition String_of_number (n : number) : string :=
  match n with
  | Num z => String_of_Z z
  | NaN => "NaN"
  end.

(** Truthiness, as [&&] tests it. *)
Definition truthy_number (n : number) : bool :=
  match n with
  | Num z => negb (z =? 0)%Z
  | NaN => false
  end.

Definition truthy_string (s : string) : bool :=
  match s with
  | EmptyString => false
  | String _ _ => true
  end.

(** Own property of a parsed object. *)
Fixpoint lookup (k : string) (fields : list (string * json)) : option json :=
  match fields with
  | [] => None
  | (k', v) :: rest => if String.eqb k k' then Some v else lookup k rest
  end.

(** [a ?? b] *)
Definition nullish_or (a : option json) (b : json) : json :=
  match a with
  | None => b
  | Some JNull => b
  | Some v => v
  end.

(** [o ?? d] where [o] is an optional argument or field that is never
    [null]. *)
Definition default {A : Type} (o : option A) (d : A) : A :=
  match o with
  | Some a => a
  | None => d
  end.

(** [s.replace(/\/$/, "")]: one trailing slash is removed. *)
Fixpoint strip_trailing_slash (s : string) : string :=
  match s with
  | EmptyString => EmptyString
  | String c EmptyString => if Ascii.eqb c "/"%char then EmptyString else s
  | String c rest => String c (strip_trailing_slash rest)
  end.

(** [s.slice(0, n)] *)
Definition slice0 (n : nat) (s : string) : string := substring 0 n s.

End Js.
Import Js.

(** ** Requests, responses and the effect monad *)

Module Http.

Inductive http_method : Type := GET | POST.

(** The arguments of one [fetch] call. [url_query = None] when the URL
    has no [?...] part. [body] is the value handed to
    [JSON.stringify]. *)
Record request : Type := mkRequest {
  url_base : string;
  url_path : string;
  url_query : option (list (string * string));
  method : http_method;
  headers : list (string * string);
  body : option json;
  signal_timeout : Z
}.

(** A response: its status and what [await res.json()] gives, a
    rejection (malformed body) or the parsed value. *)
Record response : Type := mkResponse {
  status : Z;
  json_body : exn + json
}.

(** [res.ok] *)
Definition ok (r : response) : bool :=
  ((200 <=? status r) && (status r <=? 299))%Z.

Inductive fetch_outcome : Type :=
| Rejects (e : exn)
| Resolves (r : response).

(** The network: the outcome of a request, given the requests issued
    before it (most recent first). *)
Definition server : Type := list request -> request -> fetch_outcome.

Inductive event : Type :=
| EvFetch (r : request)
| EvConsoleError (label : string) (e : exn)
| EvConsoleDebug (label : string) (e : exn).

Definition trace : Type := list event.

Fixpoint requests_of (tr : trace) : list request :=
  match tr with
  | [] => []
  | EvFetch r :: rest => r :: requests_of rest
  | _ :: rest => requests_of rest
  end.

Inductive completion (A : Type) : Type :=
| Normal (a : A)
| Throw (e : exn).
Arguments Normal {A} a.
Arguments Throw {A} e.

Definition M (A : Type) : Type := server -> trace -> completion A * trace.

Definition ret {A} (a : A) : M A := fun _ tr => (Normal a, tr).

Definition bind {A B} (m : M A) (k : A -> M B) : M B :=
  fun srv tr =>
    match m srv tr with
    | (Normal a, tr') => k a srv tr'
    | (Throw e, tr') => (Throw e, tr')
    end.

Definition throw {A} (e : exn) : M A := fun _ tr => (Throw e, tr).

(** [try { m } catch (err) { handler err }] *)
Definition try_catch {A} (m : M A) (handler : exn -> M A) : M A :=
  fun srv tr =>
    match m srv tr with
    | (Normal a, tr') => (Normal a, tr')
    | (Throw e, tr') => handler e srv tr'
    end.

(** [await fetch(url, init)] *)
Definition fetch (req : request) : M response :=
  fun srv tr =>
    match srv (requests_of tr) req with
    | Rejects e => (Throw e, EvFetch req :: tr)
    | Resolves r => (Normal r, EvFetch req :: tr)
    end.

(** [await res.json()] *)
Definition res_json (r : response) : M json :=
  fun _ tr =>
    match json_body r with
    | inl e => (Throw e, tr)
    | inr v => (Normal v, tr)
    end.

Definition console_error (label : string) (e : exn) : M unit :=
  fun _ tr => (Normal tt, EvConsoleError label e :: tr).

Definition console_debug (label : string) (e : exn) : M unit :=
  fun _ tr => (Normal tt, EvConsoleDebug label e :: tr).

(** [data.k] for one of the keys the client reads ([results],
    [observations], [id], [version]): none is defined on a prototype,
    so only a parsed object can have it, and reading it from [null]
    is a TypeError. *)
Definition get (data : json) (k : string) : M (option json) :=
  match data with
  | JNull =>
      throw (JsError "TypeError"
               ("Cannot read properties of null (reading '" ++ k ++ "')"))
  | JObj fields => ret (lookup k fields)
  | _ => ret None
  end.

Definition new_Error (message : string) : exn := JsError "Error" message.

End Http.
Import Http.

Declare Scope js_scope.
Delimit Scope js_scope with js.
Notation "x <- m ;; k" := (bind m (fun x => k))
  (at level 61, m at next level, right associativity) : js_scope.
Notation "m ;;; k" := (bind m (fun _ => k))
  (at level 61, right associativity) : js_scope.
Local Open Scope js_scope.

(** ** The client *)

Module Client.

(** [Observation["type"]] *)
Inductive ObservationType : Type :=
| decision | bugfix | feature | refactor | discovery | change.

Definition ObservationType_string (t : ObservationType) : string :=
  match t with
  | decision => "decision"
  | bugfix => "bugfix"
  | feature => "feature"
  | refactor => "refactor"
  | discovery => "discovery"
  | change => "change"
  end.

Module SearchOptions.
Record t : Type := mk {
  limit : option number;
  type : option string;
  projectPath : option string;
  maxDate : option string
}.
Definition empty : t := mk None None None None.
End SearchOptions.

Module TimelineOptions.
Record t : Type := mk {
  observationId : option number;
  limit : option number;
  before : option bool;
  after : option bool
}.
Definition empty : t := mk None None None None.
End TimelineOptions.

Module ContextOptions.
Record t : Type := mk {
  projectPath : option string;
  limit : option number
}.
Definition empty : t := mk None None.
End ContextOptions.

Module TypeOptions.
Record t : Type := mk { limit : option number }.
Definition empty : t := mk None.
End TypeOptions.

Record AddObservationParams : Type := mkAddObservationParams {
  type : option ObservationType;
  content : string;
  concepts : option (list string);
  files : option (list string);
  sessionId : option string
}.

(** The result of [getStatus]: [{ running, version?, error? }]. *)
Record Status : Type := mkStatus {
  running : bool;
  version : option json;
  error : option string
}.

(** The result of [addObservation]: [{ success, id? }]. *)
Record AddResult : Type := mkAddResult {
  success : bool;
  id : option json
}.

Record ClaudeMemClient : Type := mkClient { baseUrl : string }.

(** [constructor(baseUrl = "http://localhost:37777")] *)
Definition new (baseUrl : option string) : ClaudeMemClient :=
  mkClient (strip_trailing_slash (default baseUrl "http://localhost:37777")).

(** [...(o && { key: render(o) })] inside an object literal: the
    property is there when [o] is present and truthy. *)
Definition spread_if {A : Type} (truthy : A -> bool) (o : option A)
    (key : string) (render : A -> string) : list (string * string) :=
  match o with
  | Some a => if truthy a then [(key, render a)] else []
  | None => []
  end.

Definition json_headers : list (string * string) :=
  [("Content-Type", "application/json")].

(** A GET with the JSON content type, a query string and the 10 s
    deadline, as six of the methods issue it. *)
Definition get_request (c : ClaudeMemClient) (path : string)
    (params : list (string * string)) : request :=
  mkRequest (baseUrl c) path (Some params) GET json_headers None 10000.

(** [data.<field> ?? data ?? []], the decoding of the five list
    operations. *)
Definition field_or_self (field : string) (data : json) : M json :=
  f <- get data field ;;
  ret (nullish_or (Some (nullish_or f data)) (JArr [])).

Definition health_request (c : ClaudeMemClient) : request :=
  mkRequest (baseUrl c) "/api/health" None GET [] None 3000.

Definition getStatus (c : ClaudeMemClient) : M Status :=
  try_catch
    (res <- fetch (health_request c) ;;
     if ok res then
       data <- res_json res ;;
       v <- get data "version" ;;
       ret (mkStatus true v None)
     else
       ret (mkStatus false None (Some ("HTTP " ++ String_of_Z (status res))%string)))
    (fun err =>
       ret (mkStatus false None
              (Some match err with
                    | JsError _ message => message
                    | Thrown _ => "Connection failed"
                    end))).

Definition search_params (query : string) (options : SearchOptions.t)
  : list (string * string) :=
  [("query", query)]
    ++ spread_if truthy_number (SearchOptions.limit options) "limit" String_of_number
    ++ spread_if truthy_string (SearchOptions.type options) "type" (fun s => s)
    ++ spread_if truthy_string (SearchOptions.maxDate options) "max_date" (fun s => s).

Definition search_request (c : ClaudeMemClient) (query : string)
    (options : SearchOptions.t) : request :=
  get_request c "/api/search" (search_params query options).

Definition search (c : ClaudeMemClient) (query : string)
    (options : SearchOptions.t) : M json :=
  try_catch
    (res <- fetch (search_request c query options) ;;
     if negb (ok res) then
       throw (new_Error ("Search failed: " ++ String_of_Z (status res)))
     else
       data <- res_json res ;;
       field_or_self "results" data)
    (fun err =>
       console_error "Claude-mem search error:" err ;;;
       ret (JArr [])).

Definition timeline_params (options : TimelineOptions.t)
  : list (string * string) :=
  spread_if truthy_number (TimelineOptions.observationId options)
      "observation_id" String_of_number
    ++ spread_if truthy_number (TimelineOptions.limit options) "limit" String_of_number.

Definition timeline_request (c : ClaudeMemClient)
    (options : TimelineOptions.t) : request :=
  get_request c "/api/timeline" (timeline_params options).

Definition getTimeline (c : ClaudeMemClient) (options : TimelineOptions.t)
  : M json :=
  try_catch
    (res <- fetch (timeline_request c options) ;;
     if negb (ok res) then
       throw (new_Error ("Timeline failed: " ++ String_of_Z (status res)))
     else
       data <- res_json res ;;
       field_or_self "observations" data)
    (fun err =>
       console_error "Claude-mem timeline error:" err ;;;
       ret (JArr [])).

Definition context_params (options : ContextOptions.t)
  : list (string * string) :=
  spread_if truthy_string (ContextOptions.projectPath options)
      "project_path" (fun s => s)
    ++ spread_if truthy_number (ContextOptions.limit options) "limit" String_of_number.

Definition recent_request (c : ClaudeMemClient) (options : ContextOptions.t)
  : request :=
  get_request c "/api/context/recent" (context_params options).

Definition inject_request (c : ClaudeMemClient) (options : ContextOptions.t)
  : request :=
  get_request c "/api/context/inject" (context_params options).

Definition getRecentContext (c : ClaudeMemClient)
    (options : ContextOptions.t) : M json :=
  try_catch
    (res <- fetch (recent_request c options) ;;
     if negb (ok res) then
       injectRes <- fetch (inject_request c options) ;;
       if negb (ok injectRes) then
         throw (new_Error ("Context failed: " ++ String_of_Z (status res)))
       else
         data <- res_json injectRes ;;
         field_or_self "observations" data
     else
       data <- res_json res ;;
       field_or_self "observations" data)
    (fun err =>
       console_error "Claude-mem context error:" err ;;;
       ret (JArr [])).

(** The object given to [JSON.stringify]; a property whose value is
    [undefined] is not serialised. *)
Definition stringify_fields (fields : list (string * option json))
  : list (string * json) :=
  flat_map (fun kv => match snd kv with
                      | Some v => [(fst kv, v)]
                      | None => []
                      end) fields.

Definition strings (xs : list string) : json := JArr (map JStr xs).

Definition observation_body (params : AddObservationParams) : json :=
  JObj (stringify_fields
          [("type", option_map (fun t => JStr (ObservationType_string t)) (type params));
           ("content", Some (JStr (content params)));
           ("concepts", Some (strings (default (concepts params) [])));
           ("files", Some (strings (default (files params) [])));
           ("session_id", option_map JStr (sessionId params))]).

Definition observation_request (c : ClaudeMemClient)
    (params : AddObservationParams) : request :=
  mkRequest (baseUrl c) "/api/sessions/observations" None POST json_headers
    (Some (observation_body params)) 10000.

Definition addObservation (c : ClaudeMemClient)
    (params : AddObservationParams) : M AddResult :=
  try_catch
    (res <- fetch (observation_request c params) ;;
     if negb (ok res) then
       throw (new_Error ("Add observation failed: " ++ String_of_Z (status res)))
     else
       data <- res_json res ;;
       i <- get data "id" ;;
       ret (mkAddResult true i))
    (fun err =>
       console_error "Claude-mem add observation error:" err ;;;
       ret (mkAddResult false None)).

Definition stats_request (c : ClaudeMemClient) : request :=
  mkRequest (baseUrl c) "/api/stats" None GET json_headers None 5000.

Definition getStats (c : ClaudeMemClient) : M json :=
  try_catch
    (res <- fetch (stats_request c) ;;
     if negb (ok res) then
       throw (new_Error ("Stats failed: " ++ String_of_Z (status res)))
     else
       res_json res)
    (fun err =>
       console_error "Claude-mem stats error:" err ;;;
       ret (JObj [])).

Definition by_type_params (type : option ObservationType)
    (options : TypeOptions.t) : list (string * string) :=
  [("type", ObservationType_string (default type discovery))]
    ++ spread_if truthy_number (TypeOptions.limit options) "limit" String_of_number.

Definition by_type_request (c : ClaudeMemClient)
    (type : option ObservationType) (options : TypeOptions.t) : request :=
  get_request c "/api/search/by-type" (by_type_params type options).

Definition searchByType (c : ClaudeMemClient)
    (type : option ObservationType) (options : TypeOptions.t) : M json :=
  try_catch
    (res <- fetch (by_type_request c type options) ;;
     if negb (ok res) then
       throw (new_Error ("Search by type failed: " ++ String_of_Z (status res)))
     else
       data <- res_json res ;;
       field_or_self "observations" data)
    (fun err =>
       console_error "Claude-mem search by type error:" err ;;;
       ret (JArr [])).

(** [getDecisions(limit = 20)]: [None] is the omitted argument. *)
Definition getDecisions (c : ClaudeMemClient) (limit : option number)
  : M json :=
  let limit := default limit (Num 20) in
  searchByType c (Some decision) (TypeOptions.mk (Some limit)).

Definition how_it_works_request (c : ClaudeMemClient) (query : string)
  : request :=
  get_request c "/api/how-it-works" [("query", query)].

(** What the [try] block of [getHowItWorks] leaves: a value, or the
    promise of [this.search(...)], returned without [await] and so
    settled after the block is left. *)
Inductive returned : Type :=
| Value (v : json)
| Promise (p : M json).

Definition getHowItWorks (c : ClaudeMemClient) (query : string) : M json :=
  r <- try_catch
         (res <- fetch (how_it_works_request c query) ;;
          if negb (ok res) then
            ret (Promise (search c query
                            (SearchOptions.mk (Some (Num 10)) None None None)))
          else
            data <- res_json res ;;
            v <- field_or_self "results" data ;;
            ret (Value v))
         (fun err =>
            console_error "Claude-mem how-it-works error:" err ;;;
            ret (Value (JArr []))) ;;
  match r with
  | Value v => ret v
  | Promise p => p
  end.

End Client.

(** ** The capture hook of the plugin *)

Module Plugin.

Record ClaudeMemConfig : Type := mkConfig {
  apiUrl : option string;
  enabled : option bool;
  maxResults : option number;
  autoCapture : option bool
}.

(** [{}] *)
Definition empty_config : ClaudeMemConfig := mkConfig None None None None.

Record PluginContext : Type := mkContext { config : option ClaudeMemConfig }.

(** The event of the [afterAgentResponse] hook. *)
Record AgentResponseEvent : Type := mkEvent {
  response : option string;
  sessionId : option string
}.

(** [x === false] *)
Definition is_false (x : option bool) : bool :=
  match x with
  | Some false => true
  | _ => false
  end.

Definition capture_params (response : string) (sessionId : option string)
  : Client.AddObservationParams :=
  Client.mkAddObservationParams (Some Client.discovery)
    (slice0 1000 response) (Some []) (Some []) sessionId.

Section Hook.
(** The [addObservation] method of the client class the hook
    instantiates. *)
Context {R : Type}.
Variable addObservation :
  Client.ClaudeMemClient -> Client.AddObservationParams -> M R.

Definition afterAgentResponse_with (ctx : PluginContext)
    (event : AgentResponseEvent) : M unit :=
  let config := default (config ctx) empty_config in
  if is_false (enabled config) || is_false (autoCapture config) then ret tt
  else
    let client := Client.new (apiUrl config) in
    match response event with
    | None => ret tt
    | Some response =>
        if negb (truthy_string response) || (String.length response <? 100)%nat
        then ret tt
        else
          try_catch
            (addObservation client
               (capture_params response (sessionId event)) ;;;
             ret tt)
            (fun err => console_debug "Failed to capture observation:" err)
    end.
End Hook.

Definition afterAgentResponse : PluginContext -> AgentResponseEvent -> M unit :=
  afterAgentResponse_with Client.addObservation.

End Plugin.

(** ** Dynamic operations on parsed values

    What the tool handlers do with the value a client method returned:
    the value is whatever the service sent, so every operation is
    defined on every [json] tree and throws where JavaScript does. *)

Module Dyn.

Definition TypeError (message : string) : exn := JsError "TypeError" message.

Definition String_of_nat (n : nat) : string := String_of_Z (Z.of_nat n).

Definition newline : string := String (ascii_of_nat 10) EmptyString.

(** [String(v)], as a template literal applies it; an array prints its
    elements separated by commas, a null element as nothing. *)
Fixpoint ToString (v : json) : string :=
  match v with
  | JNull => "null"
  | JBool true => "true"
  | JBool false => "false"
  | JNum z => String_of_Z z
  | JStr s => s
  | JArr xs =>
      String.concat ","
        ((fix elements (l : list json) : list string :=
            match l with
            | [] => []
            | JNull :: rest => EmptyString :: elements rest
            | x :: rest => ToString x :: elements rest
            end) xs)
  | JObj _ => "[object Object]"
  end.

(** [xs.join(sep)] *)
Definition Array_join (sep : string) (xs : list json) : string :=
  String.concat sep
    (map (fun x => match x with JNull => EmptyString | _ => ToString x end) xs).

(** A value that may be [undefined], inside a template literal. *)
Definition template (o : option json) : string :=
  match o with
  | None => "undefined"
  | Some v => ToString v
  end.

(** [!!v] *)
Definition truthy (v : json) : bool :=
  match v with
  | JNull => false
  | JBool b => b
  | JNum z => negb (z =? 0)%Z
  | JStr s => truthy_string s
  | JArr _ | JObj _ => true
  end.

(** [o.k] where [o] may be [undefined]. *)
Definition member (o : option json) (k : string) : M (option json) :=
  match o with
  | None =>
      throw (TypeError
               ("Cannot read properties of undefined (reading '" ++ k ++ "')"))
  | Some v => get v k
  end.

(** [v.length] *)
Definition length_of (v : json) : M (option json) :=
  match v with
  | JNull => throw (TypeError "Cannot read properties of null (reading 'length')")
  | JArr xs => ret (Some (JNum (Z.of_nat (List.length xs))))
  | JStr s => ret (Some (JNum (Z.of_nat (String.length s))))
  | JObj fields => ret (lookup "length" fields)
  | _ => ret None
  end.

(** [x === 0] *)
Definition is_zero (x : option json) : bool :=
  match x with
  | Some (JNum 0) => true
  | _ => false
  end.

Fixpoint mapi_M {A B : Type} (f : A -> nat -> M B) (xs : list A) (i : nat)
  : M (list B) :=
  match xs with
  | [] => ret []
  | x :: rest =>
      y <- f x i ;;
      ys <- mapi_M f rest (S i) ;;
      ret (y :: ys)
  end.

(** [v.map((x, i) => f x i)]: only an array has [map]. *)
Definition Array_map (v : json) (name : string) (f : json -> nat -> M string)
  : M (list string) :=
  match v with
  | JArr xs => mapi_M f xs 0
  | JNull => throw (TypeError "Cannot read properties of null (reading 'map')")
  | _ => throw (TypeError (name ++ ".map is not a function"))
  end.

(** [s.split(sep)[0]] for a one-character separator. *)
Fixpoint first_segment (sep : ascii) (s : string) : string :=
  match s with
  | EmptyString => EmptyString
  | String ch rest =>
      if Ascii.eqb ch sep then EmptyString
      else String ch (first_segment sep rest)
  end.

(** [x?.split("T")[0] ?? fallback]: only a string has [split]. *)
Definition date_of (x : option json) (name fallback : string) : M string :=
  match x with
  | None | Some JNull => ret fallback
  | Some (JStr s) => ret (first_segment "T"%char s)
  | Some _ => throw (TypeError (name ++ "?.split is not a function"))
  end.

(** [x?.slice(0, n) ?? ""] inside a template literal: a string and an
    array have [slice]. *)
Definition slice_of (x : option json) (name : string) (n : nat) : M string :=
  match x with
  | None | Some JNull => ret EmptyString
  | Some (JStr s) => ret (slice0 n s)
  | Some (JArr xs) => ret (ToString (JArr (firstn n xs)))
  | Some _ => throw (TypeError (name ++ "?.slice is not a function"))
  end.

(** [(x?.length ?? 0) > n ? "..." : ""], evaluated after [slice_of] on
    the same [x] has returned: [x] is then absent, null, a string or an
    array. *)
Definition ellipsis_of (x : option json) (n : nat) : string :=
  match x with
  | Some (JStr s) => if (n <? String.length s)%nat then "..." else EmptyString
  | Some (JArr xs) => if (n <? List.length xs)%nat then "..." else EmptyString
  | _ => EmptyString
  end.

(** [x?.join(", ") ?? "none"]: only an array has [join]. *)
Definition joined_of (x : option json) (name : string) : M string :=
  match x with
  | None | Some JNull => ret "none"
  | Some (JArr xs) => ret (Array_join ", " xs)
  | Some _ => throw (TypeError (name ++ "?.join is not a function"))
  end.

End Dyn.

(** ** The tools of the plugin *)

Module Tools.
Import Client.
Import Dyn.

(** What [execute] returns: [{ content, data? }]. *)
Record ToolResult : Type := mkResult {
  content : string;
  data : option json
}.

Record Tool (A : Type) : Type := mkTool {
  name : string;
  description : string;
  execute : A -> M ToolResult
}.
Arguments mkTool {A} name description execute.
Arguments name {A} t.
Arguments description {A} t.
Arguments execute {A} t.

(** The arguments of the three tools, as their input schemas type
    them. *)
Module SearchArgs.
Record t : Type := mk {
  query : string;
  limit : option number;
  type : option string
}.
End SearchArgs.

Module TimelineArgs.
Record t : Type := mk {
  observationId : option number;
  limit : option number
}.
End TimelineArgs.

Module ContextArgs.
Record t : Type := mk {
  projectPath : option string;
  limit : option number
}.
End ContextArgs.

(** The callback of [results.map] in the search tool. *)
Definition format_result (r : json) (i : nat) : M string :=
  obs <- get r "observation" ;;
  ty <- member obs "type" ;;
  created_at <- member obs "created_at" ;;
  date <- date_of created_at "obs.created_at" "unknown" ;;
  text <- member obs "content" ;;
  preview <- slice_of text "obs.content" 200 ;;
  text' <- member obs "content" ;;
  concepts <- member obs "concepts" ;;
  concepts' <- joined_of concepts "obs.concepts" ;;
  files <- member obs "files" ;;
  files' <- joined_of files "obs.files" ;;
  ret ("[" ++ String_of_nat (i + 1) ++ "] "
         ++ ToString (nullish_or ty (JStr "observation"))
         ++ " (" ++ date ++ ")" ++ newline
         ++ "   " ++ preview ++ ellipsis_of text' 200 ++ newline
         ++ "   Concepts: " ++ concepts' ++ newline
         ++ "   Files: " ++ files')%string.

Definition search_execute (config : Plugin.ClaudeMemConfig)
    (client : ClaudeMemClient) (args : SearchArgs.t) : M ToolResult :=
  results <- search client (SearchArgs.query args)
               (SearchOptions.mk
                  (Some (default (SearchArgs.limit args)
                           (default (Plugin.maxResults config) (Num 10))))
                  (SearchArgs.type args) None None) ;;
  len <- length_of results ;;
  if is_zero len then ret (mkResult "No relevant memories found." None)
  else
    items <- Array_map results "results" format_result ;;
    len' <- length_of results ;;
    ret (mkResult
           ("Found " ++ template len' ++ " relevant memories:" ++ newline
              ++ newline ++ String.concat (newline ++ newline) items)%string
           (Some results)).

(** The first tool registered: [null] when the plugin is disabled. *)
Definition claudemem_search (ctx : Plugin.PluginContext)
  : option (Tool SearchArgs.t) :=
  let config := default (Plugin.config ctx) Plugin.empty_config in
  if Plugin.is_false (Plugin.enabled config) then None
  else
    let client := new (Plugin.apiUrl config) in
    Some (mkTool "claudemem_search"
            ("Search persistent memory from claude-mem." ++ newline
               ++ "Uses semantic search across past observations, decisions, and learnings."
               ++ newline
               ++ "Returns relevant context from previous sessions.")%string
            (search_execute config client)).

(** The callback of [timeline.map]. *)
Definition format_observation (obs : json) (_ : nat) : M string :=
  i <- get obs "id" ;;
  created_at <- get obs "created_at" ;;
  date <- date_of created_at "obs.created_at" "" ;;
  ty <- get obs "type" ;;
  text <- get obs "content" ;;
  preview <- slice_of text "obs.content" 100 ;;
  ret ("[" ++ template i ++ "] " ++ date ++ " | "
         ++ ToString (nullish_or ty (JStr "obs")) ++ ": " ++ preview)%string.

Definition timeline_execute (client : ClaudeMemClient) (args : TimelineArgs.t)
  : M ToolResult :=
  timeline <- getTimeline client
                (TimelineOptions.mk (TimelineArgs.observationId args)
                   (Some (default (TimelineArgs.limit args) (Num 20)))
                   None None) ;;
  len <- length_of timeline ;;
  if is_zero len then ret (mkResult "No timeline data available." None)
  else
    items <- Array_map timeline "timeline" format_observation ;;
    len' <- length_of timeline ;;
    ret (mkResult
           ("Timeline (" ++ template len' ++ " observations):" ++ newline
              ++ newline ++ String.concat newline items)%string
           (Some timeline)).

Definition claudemem_timeline (ctx : Plugin.PluginContext)
  : option (Tool TimelineArgs.t) :=
  let config := default (Plugin.config ctx) Plugin.empty_config in
  if Plugin.is_false (Plugin.enabled config) then None
  else
    let client := new (Plugin.apiUrl config) in
    Some (mkTool "claudemem_timeline"
            ("Get chronological timeline of observations around a specific point."
               ++ newline
               ++ "Useful for understanding the sequence of events and decisions.")%string
            (timeline_execute client)).

(** The bullet that starts a line of the context digest (U+2022), in
    UTF-8. *)
Definition bullet : string :=
  String (ascii_of_nat 226) (String (ascii_of_nat 128)
    (String (ascii_of_nat 162) EmptyString)).

(** The callback of [context.map]. *)
Definition format_context (obs : json) (_ : nat) : M string :=
  ty <- get obs "type" ;;
  text <- get obs "content" ;;
  preview <- slice_of text "obs.content" 150 ;;
  ret (bullet ++ " " ++ ToString (nullish_or ty (JStr "obs")) ++ ": "
         ++ preview)%string.

Definition context_execute (client : ClaudeMemClient) (args : ContextArgs.t)
  : M ToolResult :=
  context <- getRecentContext client
               (ContextOptions.mk (ContextArgs.projectPath args)
                  (Some (default (ContextArgs.limit args) (Num 5)))) ;;
  empty <- (if negb (truthy context) then ret true
            else len <- length_of context ;; ret (is_zero len)) ;;
  if (empty : bool) then ret (mkResult "No recent context available." None)
  else
    items <- Array_map context "context" format_context ;;
    ret (mkResult
           ("Recent context:" ++ newline ++ newline
              ++ String.concat newline items)%string
           (Some context)).

Definition claudemem_context (ctx : Plugin.PluginContext)
  : option (Tool ContextArgs.t) :=
  let config := default (Plugin.config ctx) Plugin.empty_config in
  if Plugin.is_false (Plugin.enabled config) then None
  else
    let client := new (Plugin.apiUrl config) in
    Some (mkTool "claudemem_context"
            ("Get recent context for session injection." ++ newline
               ++ "Returns the most relevant recent observations for the current context.")%string
            (context_execute client)).

End Tools.

(** ** Specification vocabulary *)

Import Client.

(** [params.get(k)] on a [URLSearchParams]. *)
Fixpoint param (k : string) (ps : list (string * string)) : option string :=
  match ps with
  | [] => None
  | (k', v) :: rest => if String.eqb k' k then Some v else param k rest
  end.

(** [params.has(k)] *)
Definition has_param (k : string) (ps : list (string * string)) : bool :=
  match param k ps with
  | Some _ => true
  | None => false
  end.

(** A request that did not deliver a parsed body: the fetch rejected
    (connectivity, deadline), the status is not a success, or the body
    does not parse. *)
Definition failed (o : fetch_outcome) : bool :=
  match o with
  | Rejects _ => true
  | Resolves r =>
      negb (ok r) || match json_body r with inl _ => true | inr _ => false end
  end.

(** A fetch that threw instead of completing with a status, or whose
    successful response has a body that does not parse. *)
Definition threw (o : fetch_outcome) : bool :=
  match o with
  | Rejects _ => true
  | Resolves r => ok r && match json_body r with inl _ => true | inr _ => false end
  end.

(** A success response with the given parsed body. *)
Definition succeeds_with (o : fetch_outcome) (data : json) : Prop :=
  exists r, o = Resolves r /\ ok r = true /\ json_body r = inr data.

(** The server that gives one answer to everything. *)
Definition always (o : fetch_outcome) : server := fun _ _ => o.

Definition http_ok (data : json) : fetch_outcome :=
  Resolves (mkResponse 200 (inr data)).

Definition http_status (code : Z) : fetch_outcome :=
  Resolves (mkResponse code (inr (JObj []))).

Definition localhost : ClaudeMemClient := new None.

(** The run ends with a value, not with an exception. *)
Definition returns {A} (r : completion A * trace) : Prop :=
  exists a, fst r = Normal a.

(** An optional value that is present and truthy. *)
Definition given {A} (truthy : A -> bool) (o : option A) : Prop :=
  exists a, o = Some a /\ truthy a = true.

(** Every request the server is sent fails. *)
Definition all_fail (srv : server) : Prop :=
  forall history req, failed (srv history req) = true.

(** The server that turns the primary endpoint down and answers the
    fallback endpoint with [o]. *)
Definition recent_down (o : fetch_outcome) : server :=
  fun _ req =>
    if String.eqb (url_path req) "/api/context/recent" then http_status 404 else o.

(** [data] is the object [{ field: xs, ... }]. *)
Definition wraps (field : string) (xs : list json) (data : json) : Prop :=
  exists fields, data = JObj fields /\ lookup field fields = Some (JArr xs).

(** [data] is the bare array [xs] or a wrapper of it. *)
Definition carries (field : string) (xs : list json) (data : json) : Prop :=
  data = JArr xs \/ wraps field xs data.

(** [data] is an object whose [field] is neither absent nor null. *)
Definition exposes (field : string) (data : json) : bool :=
  match data with
  | JObj fields =>
      match lookup field fields with
      | None | Some JNull => false
      | Some _ => true
      end
  | _ => false
  end.

(** Both gates of the configuration are open: neither [enabled] nor
    [autoCapture] is [false]. *)
Definition capturing (ctx : Plugin.PluginContext) : bool :=
  let cfg := default (Plugin.config ctx) Plugin.empty_config in
  negb (Plugin.is_false (Plugin.enabled cfg))
  && negb (Plugin.is_false (Plugin.autoCapture cfg)).

(** The client the hook builds. *)
Definition hook_client (ctx : Plugin.PluginContext) : ClaudeMemClient :=
  new (Plugin.apiUrl (default (Plugin.config ctx) Plugin.empty_config)).

(** A response of 120 characters. *)
Definition long_text : string :=
  String.concat "" (repeat "0123456789" 12).


(** *** Vocabulary of the further properties *)

(** The last character of [s] is a slash. *)
Fixpoint ends_with_slash (s : string) : bool :=
  match s with
  | EmptyString => false
  | String ch EmptyString => Ascii.eqb ch "/"%char
  | String _ rest => ends_with_slash rest
  end.

(** The own property [k] of a parsed value that is not null. *)
Definition own (data : json) (k : string) : option json :=
  match data with
  | JObj fields => lookup k fields
  | _ => None
  end.

(** The request was answered with a success status and a body that
    parses to [data], not null. *)
Definition delivers (o : fetch_outcome) (data : json) : Prop :=
  succeeds_with o data /\ data <> JNull.

(** The request delivered nothing a method can read: it was rejected,
    turned down, or its body is unparsable or null. *)
Definition nothing_delivered (o : fetch_outcome) : Prop :=
  forall data, succeeds_with o data -> data = JNull.

(** The requests a run added to those of the trace it started from,
    most recent first. *)
Definition issued {A} (run : completion A * trace) (tr : trace)
    (new : list request) : Prop :=
  requests_of (snd run) = new ++ requests_of tr.

(** A bodiless GET to the service of the client. *)
Definition reads (c : ClaudeMemClient) (req : request) : Prop :=
  url_base req = baseUrl c /\ method req = GET /\ body req = None.

(** [search(query, { limit: 10 })] *)
Definition ten : SearchOptions.t := SearchOptions.mk (Some (Num 10)) None None None.

(** [ch] occurs in [s]. *)
Fixpoint has_char (ch : ascii) (s : string) : bool :=
  match s with
  | EmptyString => false
  | String ch' rest => Ascii.eqb ch' ch || has_char ch rest
  end.

(** A computation that affects nothing: it issues no request and logs
    nothing. *)
Definition pure {A} (m : M A) : Prop :=
  forall srv tr, snd (m srv tr) = tr.

(** A computation that affects nothing and returns a value with
    property [P]. *)
Definition yields {A} (m : M A) (P : A -> Prop) : Prop :=
  forall srv tr, exists a, m srv tr = (Normal a, tr) /\ P a.

(** An optional field that is absent or satisfies [p]. *)
Definition absent_or (p : json -> bool) (o : option json) : bool :=
  match o with
  | None => true
  | Some v => p v
  end.

Definition is_string (v : json) : bool :=
  match v with
  | JStr _ => true
  | _ => false
  end.

Definition is_string_array (v : json) : bool :=
  match v with
  | JArr xs => forallb is_string xs
  | _ => false
  end.

(** A parsed value whose fields, as far as the digests read them, have
    the types of the [Observation] interface. *)
Definition is_Observation (v : json) : bool :=
  match v with
  | JObj fields =>
      absent_or is_string (lookup "type" fields)
      && absent_or is_string (lookup "content" fields)
      && absent_or is_string_array (lookup "concepts" fields)
      && absent_or is_string_array (lookup "files" fields)
      && absent_or is_string (lookup "created_at" fields)
  | _ => false
  end.

(** A parsed value with the [observation] of the [SearchResult]
    interface. *)
Definition is_SearchResult (v : json) : bool :=
  match v with
  | JObj fields =>
      match lookup "observation" fields with
      | Some obs => is_Observation obs
      | None => false
      end
  | _ => false
  end.

(** The options the three tools hand to the client. *)
Definition search_tool_options (config : Plugin.ClaudeMemConfig)
    (args : Tools.SearchArgs.t) : SearchOptions.t :=
  SearchOptions.mk
    (Some (default (Tools.SearchArgs.limit args)
             (default (Plugin.maxResults config) (Num 10))))
    (Tools.SearchArgs.type args) None None.

Definition timeline_tool_options (args : Tools.TimelineArgs.t)
  : TimelineOptions.t :=
  TimelineOptions.mk (Tools.TimelineArgs.observationId args)
    (Some (default (Tools.TimelineArgs.limit args) (Num 20))) None None.

Definition context_tool_options (args : Tools.ContextArgs.t)
  : ContextOptions.t :=
  ContextOptions.mk (Tools.ContextArgs.projectPath args)
    (Some (default (Tools.ContextArgs.limit args) (Num 5))).

(** The configuration a context carries, [{}] when it has none. *)
Definition config_of (ctx : Plugin.PluginContext) : Plugin.ClaudeMemConfig :=
  default (Plugin.config ctx) Plugin.empty_config.

(** A well-typed observation and a search result around it. *)
Definition sample_observation : json :=
  JObj [("id", JNum 7); ("type", JStr "bugfix"); ("content", JStr "fixed X");
        ("created_at", JStr "2025-01-02T10:00:00Z");
        ("concepts", JArr [JStr "auth"; JStr "login"])].

Definition sample_result : json := JObj [("observation", sample_observation)].

(** An error envelope, as a service may answer with status 200. *)
Definition error_envelope : json := JObj [("error", JStr "index not ready")].
(** ** Runs on concrete servers *)

Example search_run_wrapper :
  search localhost "auth" (SearchOptions.mk (Some (Num 3)) (Some "bugfix") None None)
    (always (http_ok (JObj [("results", JArr [JStr "a"])]))) []
  = (Normal (JArr [JStr "a"]),
     [EvFetch (mkRequest "http://localhost:37777" "/api/search"
                 (Some [("query", "auth"); ("limit", "3"); ("type", "bugfix")])
                 GET [("Content-Type", "application/json")] None 10000)]).
Proof. reflexivity. Qed.

Example search_run_500 :
  search localhost "auth" SearchOptions.empty (always (http_status 500)) []
  = (Normal (JArr []),
     [EvConsoleError "Claude-mem search error:" (JsError "Error" "Search failed: 500");
      EvFetch (search_request localhost "auth" SearchOptions.empty)]).
Proof. reflexivity. Qed.

Example getStatus_run_null_body :
  fst (getStatus localhost (always (http_ok JNull)) [])
  = Normal (mkStatus false None
              (Some "Cannot read properties of null (reading 'version')")).
Proof. reflexivity. Qed.

Example new_strips_one_slash :
  baseUrl (new (Some "http://mem.local:8080//")) = "http://mem.local:8080/".
Proof. reflexivity. Qed.

(** ** Proof support *)

Create HintDb client discriminated.

#[local] Hint Unfold getStatus search getTimeline getRecentContext addObservation
  getStats searchByType getDecisions getHowItWorks field_or_self
  try_catch bind ret throw fetch res_json console_error console_debug get
  : client.

(** One step of symbolic execution: split on the next thing the run
    depends on. *)
Ltac split_run :=
  match goal with
  | |- context [match ?srv ?h ?r with Rejects _ => _ | Resolves _ => _ end] =>
      destruct (srv h r) eqn:?
  | |- context [if negb (ok ?r) then _ else _] => destruct (ok r) eqn:?
  | |- context [if ok ?r then _ else _] => destruct (ok r) eqn:?
  | |- context [match json_body ?r with inl _ => _ | inr _ => _ end] =>
      destruct (json_body r) eqn:?
  | |- context [match ?d with JNull => _ | _ => _ end] => destruct d eqn:?
  end; simpl.

Ltac run := autounfold with client; simpl; repeat split_run.

Lemma ok_status r : ok r = true <-> (200 <= status r <= 299)%Z.
Proof. unfold ok. rewrite andb_true_iff, !Z.leb_le. tauto. Qed.

Lemma nullish_or_self f data :
  data <> JNull -> nullish_or (Some (nullish_or f data)) (JArr []) <> JNull.
Proof.
  intros Hd. destruct f as [[]|]; simpl; try discriminate; destruct data; congruence.
Qed.

(** Every single-request method issues its request and nothing else,
    whatever the server answers. *)
Lemma search_requests c query options srv tr :
  requests_of (snd (search c query options srv tr))
  = search_request c query options :: requests_of tr.
Proof. run; reflexivity. Qed.

Lemma searchByType_requests c type options srv tr :
  requests_of (snd (searchByType c type options srv tr))
  = by_type_request c type options :: requests_of tr.
Proof. run; reflexivity. Qed.

Lemma addObservation_requests c params srv tr :
  requests_of (snd (addObservation c params srv tr))
  = observation_request c params :: requests_of tr.
Proof. run; reflexivity. Qed.

Lemma search_returns c query options srv tr :
  returns (search c query options srv tr).
Proof. unfold returns. run; eauto. Qed.

Lemma addObservation_returns c params srv tr :
  returns (addObservation c params srv tr).
Proof. unfold returns. run; eauto. Qed.

(** ** Query parameters of [search] *)

(** C8. Every call [search(query, options)] issues one request, whose
    query string has the [query] parameter and has [limit], [type] and
    [max_date] exactly when the corresponding option is present and
    truthy; a limit of 0 (or NaN) and an empty type are left out. *)
Theorem search_params_present_iff_truthy c query options srv tr :
  let ps := search_params query options in
  (requests_of (snd (search c query options srv tr))
     = search_request c query options :: requests_of tr
   /\ url_query (search_request c query options) = Some ps)
  /\ param "query" ps = Some query
  /\ (has_param "limit" ps = true
      <-> given truthy_number (SearchOptions.limit options))
  /\ (has_param "type" ps = true
      <-> given truthy_string (SearchOptions.type options))
  /\ (has_param "max_date" ps = true
      <-> given truthy_string (SearchOptions.maxDate options))
  /\ (SearchOptions.limit options = Some (Num 0) -> has_param "limit" ps = false)
  /\ (SearchOptions.type options = Some "" -> has_param "type" ps = false).
Proof.
  intros ps. split; [split; [apply search_requests | reflexivity] |].
  subst ps. unfold search_params, spread_if, has_param, given.
  destruct options as [lim ty pp md]; simpl.
  destruct lim as [n|]; [destruct (truthy_number n) eqn:Hn |];
    (destruct ty as [t|]; [destruct (truthy_string t) eqn:Ht |]);
    (destruct md as [d|]; [destruct (truthy_string d) eqn:Hd |]);
    simpl; repeat split; intros; try discriminate; eauto;
    repeat match goal with
           | H : exists _, _ |- _ => destruct H as [? [? ?]]
           | H : Some _ = Some _ |- _ => injection H as H; subst
           end;
    simpl in *; try discriminate; try congruence.
Qed.

Lemma search_params_present_iff_truthy_witness :
  SearchOptions.limit (SearchOptions.mk (Some (Num 0)) (Some "") None (Some "2025-01-01"))
    = Some (Num 0)
  /\ has_param "limit"
       (search_params "auth"
          (SearchOptions.mk (Some (Num 0)) (Some "") None (Some "2025-01-01")))
     = false.
Proof.
  split; [reflexivity |].
  apply (search_params_present_iff_truthy localhost "auth"
           (SearchOptions.mk (Some (Num 0)) (Some "") None (Some "2025-01-01"))
           (always (http_ok (JArr []))) []).
  reflexivity.
Defined.

(** ** [getDecisions] *)

(** C9. [getDecisions(n)] is [searchByType("decision", { limit: n })]:
    same request, same result; without argument the limit is 20; and
    [getDecisions(5)] asks /api/search/by-type for type decision with
    limit 5. *)
Theorem getDecisions_is_searchByType_decision c srv tr :
  (forall n,
      getDecisions c (Some n) srv tr
      = searchByType c (Some decision) (TypeOptions.mk (Some n)) srv tr)
  /\ getDecisions c None srv tr
     = searchByType c (Some decision) (TypeOptions.mk (Some (Num 20))) srv tr
  /\ requests_of (snd (getDecisions c None srv tr))
     = get_request c "/api/search/by-type" [("type", "decision"); ("limit", "20")]
         :: requests_of tr
  /\ requests_of (snd (getDecisions c (Some (Num 5)) srv tr))
     = get_request c "/api/search/by-type" [("type", "decision"); ("limit", "5")]
         :: requests_of tr.
Proof.
  repeat split; try reflexivity;
    unfold getDecisions; simpl; rewrite searchByType_requests; reflexivity.
Qed.

(** ** [addObservation] *)

(** C7. When [concepts] and [files] are omitted the body of the POST
    has both as empty arrays (for [{type:"bugfix", content:"fixed X"}]
    the body is exactly the four fields shown); and a success response
    whose body has [id] 42 gives [{success:true, id:42}]. *)
Theorem addObservation_defaults_and_id c srv tr :
  (forall type content sessionId,
      let params := mkAddObservationParams type content None None sessionId in
      requests_of (snd (addObservation c params srv tr))
        = observation_request c params :: requests_of tr
      /\ method (observation_request c params) = POST
      /\ exists fields,
          body (observation_request c params) = Some (JObj fields)
          /\ lookup "concepts" fields = Some (JArr [])
          /\ lookup "files" fields = Some (JArr []))
  /\ body (observation_request c
             (mkAddObservationParams (Some bugfix) "fixed X" None None None))
     = Some (JObj [("type", JStr "bugfix"); ("content", JStr "fixed X");
                   ("concepts", JArr []); ("files", JArr [])])
  /\ (forall params fields,
         succeeds_with (srv (requests_of tr) (observation_request c params))
           (JObj fields) ->
         lookup "id" fields = Some (JNum 42) ->
         fst (addObservation c params srv tr)
         = Normal (mkAddResult true (Some (JNum 42)))).
Proof.
  split; [| split; [reflexivity |]].
  - intros type content sessionId params.
    split; [apply addObservation_requests |]. split; [reflexivity |].
    subst params. destruct type, sessionId; simpl; eexists; repeat split.
  - intros params fields (r & Hr & Hok & Hbody) Hid.
    autounfold with client. rewrite Hr. simpl. rewrite Hok. simpl.
    rewrite Hbody. simpl. rewrite Hid. reflexivity.
Qed.

Lemma addObservation_defaults_and_id_witness :
  fst (addObservation localhost
         (mkAddObservationParams (Some bugfix) "fixed X" None None None)
         (always (http_ok (JObj [("id", JNum 42)]))) [])
  = Normal (mkAddResult true (Some (JNum 42))).
Proof.
  apply (proj2 (proj2 (addObservation_defaults_and_id localhost
                         (always (http_ok (JObj [("id", JNum 42)]))) []))
           _ [("id", JNum 42)]).
  - exists (mkResponse 200 (inr (JObj [("id", JNum 42)]))).
    repeat split; reflexivity.
  - reflexivity.
Defined.

(** ** Failures become safe defaults *)

(** Close a branch in which a request delivered a parsed body although
    the server only fails. *)
Ltac contradict_failure H :=
  match goal with
  | E : ?srv ?h ?r = Resolves _ |- _ =>
      let F := fresh "F" in
      pose proof (H h r) as F; rewrite E in F; unfold failed in F;
      repeat match goal with
             | Hx : ok _ = _ |- _ => rewrite Hx in F
             | Hx : json_body _ = _ |- _ => rewrite Hx in F
             end;
      simpl in F; discriminate F
  end.

(** No exception leaves a public method, whatever the server does. *)
Lemma no_exception_escapes c srv tr :
  returns (getStatus c srv tr)
  /\ (forall q o, returns (search c q o srv tr))
  /\ (forall o, returns (getTimeline c o srv tr))
  /\ (forall o, returns (getRecentContext c o srv tr))
  /\ (forall p, returns (addObservation c p srv tr))
  /\ returns (getStats c srv tr)
  /\ (forall t o, returns (searchByType c t o srv tr))
  /\ (forall n, returns (getDecisions c n srv tr))
  /\ (forall q, returns (getHowItWorks c q srv tr)).
Proof.
  unfold returns. repeat split; intros; run; eauto.
Qed.

(** C1. When the HTTP requests fail (the fetch rejects on a timeout or
    a network error, the status is not a success, or the body does not
    parse), no public method throws: the list operations return the
    empty sequence, [addObservation] returns [{success:false}],
    [getStatus] returns [{running:false, error}] and [getStats] the
    empty record. *)
Theorem failure_gives_safe_default c srv tr :
  all_fail srv ->
  (exists e, fst (getStatus c srv tr) = Normal (mkStatus false None (Some e)))
  /\ (forall q o, fst (search c q o srv tr) = Normal (JArr []))
  /\ (forall o, fst (getTimeline c o srv tr) = Normal (JArr []))
  /\ (forall o, fst (getRecentContext c o srv tr) = Normal (JArr []))
  /\ (forall p, fst (addObservation c p srv tr) = Normal (mkAddResult false None))
  /\ fst (getStats c srv tr) = Normal (JObj [])
  /\ (forall t o, fst (searchByType c t o srv tr) = Normal (JArr []))
  /\ (forall n, fst (getDecisions c n srv tr) = Normal (JArr []))
  /\ (forall q, fst (getHowItWorks c q srv tr) = Normal (JArr [])).
Proof.
  intros H. repeat split; intros; run;
    try reflexivity; try (eexists; reflexivity); contradict_failure H.
Qed.

Lemma failure_gives_safe_default_witness :
  all_fail (always (http_status 503))
  /\ fst (getStatus localhost (always (http_status 503)) [])
     = Normal (mkStatus false None (Some "HTTP 503"))
  /\ fst (getRecentContext localhost ContextOptions.empty
            (always (http_status 503)) [])
     = Normal (JArr []).
Proof.
  assert (H : all_fail (always (http_status 503))) by (intros h r; reflexivity).
  split; [exact H |]. split; [reflexivity |].
  apply (failure_gives_safe_default localhost (always (http_status 503)) [] H).
Defined.

(** ** The fallback of [getRecentContext] *)

(** C2. When GET /api/context/recent completes with a non-success
    status, exactly one more request is issued, a GET of
    /api/context/inject with the same query parameters; when that one
    fails too, the result is the empty sequence. *)
Theorem getRecentContext_falls_back_once c options srv tr r :
  srv (requests_of tr) (recent_request c options) = Resolves r ->
  ok r = false ->
  requests_of (snd (getRecentContext c options srv tr))
    = inject_request c options :: recent_request c options :: requests_of tr
  /\ (url_path (inject_request c options) = "/api/context/inject"
      /\ method (inject_request c options) = GET
      /\ url_query (inject_request c options)
         = url_query (recent_request c options))
  /\ (failed (srv (recent_request c options :: requests_of tr)
                (inject_request c options)) = true ->
      fst (getRecentContext c options srv tr) = Normal (JArr [])).
Proof.
  intros Hr Hok. split; [| split; [repeat split |]].
  - autounfold with client. rewrite Hr. simpl. rewrite Hok. simpl.
    repeat split_run; reflexivity.
  - intros Hf. autounfold with client. rewrite Hr. simpl. rewrite Hok. simpl.
    unfold failed in Hf.
    destruct (srv _ (inject_request c options)) as [e | r2]; simpl; [reflexivity |].
    destruct (ok r2); simpl in *; [| reflexivity].
    destruct (json_body r2); simpl; [reflexivity | discriminate Hf].
Qed.

Lemma getRecentContext_falls_back_once_witness :
  fst (getRecentContext localhost ContextOptions.empty
         (recent_down (Rejects (JsError "TypeError" "fetch failed"))) [])
  = Normal (JArr []).
Proof.
  apply (proj2 (proj2 (getRecentContext_falls_back_once localhost
                         ContextOptions.empty
                         (recent_down (Rejects (JsError "TypeError" "fetch failed")))
                         [] (mkResponse 404 (inr (JObj []))) eq_refl eq_refl))).
  reflexivity.
Defined.

(** ** A thrown primary request skips the fallback *)

(** C10. When the primary request of [getRecentContext] or of
    [getHowItWorks] throws (the fetch rejects, or the body of a success
    response does not parse) the method logs the error and returns the
    empty sequence; the primary request is the only one issued. *)
Theorem primary_throw_skips_fallback c srv tr :
  (forall options,
      threw (srv (requests_of tr) (recent_request c options)) = true ->
      exists e,
        getRecentContext c options srv tr
        = (Normal (JArr []),
           EvConsoleError "Claude-mem context error:" e
             :: EvFetch (recent_request c options) :: tr))
  /\ (forall query,
      threw (srv (requests_of tr) (how_it_works_request c query)) = true ->
      exists e,
        getHowItWorks c query srv tr
        = (Normal (JArr []),
           EvConsoleError "Claude-mem how-it-works error:" e
             :: EvFetch (how_it_works_request c query) :: tr)).
Proof.
  split; intros x Ht; unfold threw in Ht; autounfold with client;
    destruct (srv _ _) as [e | r]; simpl;
    try (eexists; reflexivity);
    destruct (ok r); simpl in *; try discriminate Ht;
    destruct (json_body r); simpl; try discriminate Ht;
    eexists; reflexivity.
Qed.

Lemma primary_throw_skips_fallback_witness :
  requests_of
    (snd (getRecentContext localhost ContextOptions.empty
            (always (Rejects (JsError "TimeoutError" "The operation timed out"))) []))
  = [recent_request localhost ContextOptions.empty].
Proof.
  destruct (proj1 (primary_throw_skips_fallback localhost
             (always (Rejects (JsError "TimeoutError" "The operation timed out"))) [])
             ContextOptions.empty eq_refl) as [e He].
  rewrite He. reflexivity.
Defined.

(** ** The fallback of [getHowItWorks] *)

(** C5. When GET /api/how-it-works completes with a non-success status,
    [getHowItWorks(query)] goes on as [search(query, {limit: 10})] and
    returns what that call returns: the search request (query, limit
    10) is the one request issued after the primary. *)
Theorem getHowItWorks_falls_back_to_search c query srv tr r :
  srv (requests_of tr) (how_it_works_request c query) = Resolves r ->
  ok r = false ->
  getHowItWorks c query srv tr
    = search c query (SearchOptions.mk (Some (Num 10)) None None None) srv
        (EvFetch (how_it_works_request c query) :: tr)
  /\ requests_of (snd (getHowItWorks c query srv tr))
     = get_request c "/api/search" [("query", query); ("limit", "10")]
         :: how_it_works_request c query :: requests_of tr.
Proof.
  intros Hr Hok.
  assert (E : getHowItWorks c query srv tr
              = search c query (SearchOptions.mk (Some (Num 10)) None None None) srv
                  (EvFetch (how_it_works_request c query) :: tr)).
  { autounfold with client. rewrite Hr. simpl. rewrite Hok. reflexivity. }
  split; [exact E |]. rewrite E, search_requests. reflexivity.
Qed.

Lemma getHowItWorks_falls_back_to_search_witness :
  fst (getHowItWorks localhost "cache"
         (fun _ req =>
            if String.eqb (url_path req) "/api/how-it-works" then http_status 500
            else http_ok (JObj [("results", JArr [JStr "hit"])])) [])
  = Normal (JArr [JStr "hit"]).
Proof.
  rewrite (proj1 (getHowItWorks_falls_back_to_search localhost "cache"
                    (fun _ req =>
                       if String.eqb (url_path req) "/api/how-it-works"
                       then http_status 500
                       else http_ok (JObj [("results", JArr [JStr "hit"])])) []
                    (mkResponse 500 (inr (JObj []))) eq_refl eq_refl)).
  reflexivity.
Defined.

(** ** Decoding of the response body *)

(** Run a method up to the parsed body of a success response. *)
Ltac answer H :=
  let r := fresh "r" in
  let Hr := fresh "Hr" in
  let Hok := fresh "Hok" in
  let Hb := fresh "Hb" in
  destruct H as (r & Hr & Hok & Hb);
  autounfold with client; rewrite Hr; simpl; rewrite Hok; simpl;
  rewrite Hb; simpl.

Lemma field_or_self_carries field xs data srv tr :
  carries field xs data ->
  field_or_self field data srv tr = (Normal (JArr xs), tr).
Proof.
  intros [-> | (fields & -> & Hl)]; autounfold with client; simpl;
    [| rewrite Hl]; reflexivity.
Qed.

Lemma field_or_self_passes field data srv tr :
  data <> JNull -> exposes field data = false ->
  field_or_self field data srv tr = (Normal data, tr).
Proof.
  intros Hn He. autounfold with client.
  destruct data; simpl in *; try congruence.
  destruct (lookup field fields) as [[]|]; simpl; congruence.
Qed.

(** C3. For the five list operations, a success response whose body is
    the bare array [xs] and one whose body is the wrapper
    [{results: xs}] (search, how-it-works) or [{observations: xs}]
    (timeline, recent context, search by type) decode to the same
    sequence, [xs]. *)
Theorem bare_array_and_wrapper_decode_alike c srv tr xs body :
  (forall q o,
      carries "results" xs body ->
      succeeds_with (srv (requests_of tr) (search_request c q o)) body ->
      fst (search c q o srv tr) = Normal (JArr xs))
  /\ (forall o,
      carries "observations" xs body ->
      succeeds_with (srv (requests_of tr) (timeline_request c o)) body ->
      fst (getTimeline c o srv tr) = Normal (JArr xs))
  /\ (forall o,
      carries "observations" xs body ->
      succeeds_with (srv (requests_of tr) (recent_request c o)) body ->
      fst (getRecentContext c o srv tr) = Normal (JArr xs))
  /\ (forall t o,
      carries "observations" xs body ->
      succeeds_with (srv (requests_of tr) (by_type_request c t o)) body ->
      fst (searchByType c t o srv tr) = Normal (JArr xs))
  /\ (forall q,
      carries "results" xs body ->
      succeeds_with (srv (requests_of tr) (how_it_works_request c q)) body ->
      fst (getHowItWorks c q srv tr) = Normal (JArr xs)).
Proof.
  repeat split; intros;
    match goal with
    | Hc : carries ?f _ _, Hs : succeeds_with _ _ |- _ =>
        pose proof (fun s t => field_or_self_carries f xs body s t Hc) as D;
        answer Hs
    end;
    unfold field_or_self, bind, ret, get in D; rewrite D; reflexivity.
Qed.

Lemma bare_array_and_wrapper_decode_alike_witness :
  fst (search localhost "auth" SearchOptions.empty
         (always (http_ok (JArr [JStr "a"; JStr "b"]))) [])
  = Normal (JArr [JStr "a"; JStr "b"])
  /\ fst (search localhost "auth" SearchOptions.empty
            (always (http_ok (JObj [("results", JArr [JStr "a"; JStr "b"])]))) [])
     = Normal (JArr [JStr "a"; JStr "b"]).
Proof.
  split.
  - apply (proj1 (bare_array_and_wrapper_decode_alike localhost
                    (always (http_ok (JArr [JStr "a"; JStr "b"]))) []
                    [JStr "a"; JStr "b"] (JArr [JStr "a"; JStr "b"]))).
    + left. reflexivity.
    + eexists. repeat split; reflexivity.
  - apply (proj1 (bare_array_and_wrapper_decode_alike localhost
                    (always (http_ok (JObj [("results", JArr [JStr "a"; JStr "b"])])))
                    [] [JStr "a"; JStr "b"]
                    (JObj [("results", JArr [JStr "a"; JStr "b"])]))).
    + right. eexists. split; reflexivity.
    + eexists. repeat split; reflexivity.
Defined.

(** C4, as the specification words it, fails: a success response whose
    body is an object without the [results] field is returned as it is,
    not turned into the empty sequence. *)
Lemma unrelated_object_is_not_emptied :
  exposes "results" (JObj [("total", JNum 0)]) = false
  /\ fst (search localhost "auth" SearchOptions.empty
            (always (http_ok (JObj [("total", JNum 0)]))) [])
     = Normal (JObj [("total", JNum 0)])
  /\ fst (search localhost "auth" SearchOptions.empty
            (always (http_ok (JObj [("total", JNum 0)]))) [])
     <> Normal (JArr []).
Proof. repeat split; try reflexivity. simpl. discriminate. Qed.

(** C4, amended. For the five list operations, a success response
    whose body is not null and does not expose the named field (the
    field is absent or null, or the body is no object) is returned
    unchanged, sequence or not; a success response whose body is null
    gives the empty sequence. *)
Theorem body_without_field_is_passed_through c srv tr body :
  (forall q o,
      succeeds_with (srv (requests_of tr) (search_request c q o)) body ->
      (body <> JNull -> exposes "results" body = false ->
       fst (search c q o srv tr) = Normal body)
      /\ (body = JNull -> fst (search c q o srv tr) = Normal (JArr [])))
  /\ (forall o,
      succeeds_with (srv (requests_of tr) (timeline_request c o)) body ->
      (body <> JNull -> exposes "observations" body = false ->
       fst (getTimeline c o srv tr) = Normal body)
      /\ (body = JNull -> fst (getTimeline c o srv tr) = Normal (JArr [])))
  /\ (forall o,
      succeeds_with (srv (requests_of tr) (recent_request c o)) body ->
      (body <> JNull -> exposes "observations" body = false ->
       fst (getRecentContext c o srv tr) = Normal body)
      /\ (body = JNull -> fst (getRecentContext c o srv tr) = Normal (JArr [])))
  /\ (forall t o,
      succeeds_with (srv (requests_of tr) (by_type_request c t o)) body ->
      (body <> JNull -> exposes "observations" body = false ->
       fst (searchByType c t o srv tr) = Normal body)
      /\ (body = JNull -> fst (searchByType c t o srv tr) = Normal (JArr [])))
  /\ (forall q,
      succeeds_with (srv (requests_of tr) (how_it_works_request c q)) body ->
      (body <> JNull -> exposes "results" body = false ->
       fst (getHowItWorks c q srv tr) = Normal body)
      /\ (body = JNull -> fst (getHowItWorks c q srv tr) = Normal (JArr []))).
Proof.
  repeat split; intros;
    match goal with
    | Hs : succeeds_with _ _ |- _ => answer Hs
    end;
    try (subst body; reflexivity);
    match goal with
    | Hn : body <> JNull, He : exposes ?f body = false |- _ =>
        pose proof (fun s t => field_or_self_passes f body s t Hn He) as D
    end;
    unfold field_or_self, bind, ret, get in D; rewrite D; reflexivity.
Qed.

Lemma body_without_field_is_passed_through_witness :
  fst (getTimeline localhost TimelineOptions.empty
         (always (http_ok (JObj [("observations", JNull); ("total", JNum 0)]))) [])
  = Normal (JObj [("observations", JNull); ("total", JNum 0)])
  /\ fst (getTimeline localhost TimelineOptions.empty (always (http_ok JNull)) [])
     = Normal (JArr []).
Proof.
  split.
  - apply (proj1 (proj2 (body_without_field_is_passed_through localhost
             (always (http_ok (JObj [("observations", JNull); ("total", JNum 0)])))
             [] (JObj [("observations", JNull); ("total", JNum 0)])))
             TimelineOptions.empty).
    + eexists. repeat split; reflexivity.
    + discriminate.
    + reflexivity.
  - apply (proj1 (proj2 (body_without_field_is_passed_through localhost
             (always (http_ok JNull)) [] JNull)) TimelineOptions.empty).
    + eexists. repeat split; reflexivity.
    + reflexivity.
Defined.

(** ** The capture hook *)

Lemma slice0_length n s :
  String.length (slice0 n s) = Nat.min n (String.length s).
Proof.
  unfold slice0. revert n. induction s as [| ch s IH]; intros [| n]; simpl;
    try reflexivity.
  rewrite IH. reflexivity.
Qed.

Lemma slice0_prefix n s : prefix (slice0 n s) s = true.
Proof.
  unfold slice0. revert n. induction s as [| ch s IH]; intros [| n]; simpl;
    try reflexivity.
  destruct (ascii_dec ch ch) as [_ | Hne]; [apply IH | congruence].
Qed.

Lemma long_text_is_captured text :
  100 <= String.length text ->
  negb (truthy_string text) || (String.length text <? 100)%nat = false.
Proof.
  intros H. apply orb_false_iff. split.
  - destruct text; [simpl in H; lia | reflexivity].
  - apply Nat.ltb_ge. exact H.
Qed.

(** C6. With both gates open and a response of at least 100
    characters the hook makes one [addObservation] call, of type
    discovery, with the first 1000 characters of the response, empty
    concepts and files and the session id of the event, which is one
    POST to the service; an error of that call is logged and goes no
    further. With a gate closed, no response or a response under 100
    characters nothing is called. The hook never throws. *)
Theorem afterAgentResponse_captures_once ctx event srv tr :
  (forall text,
      capturing ctx = true ->
      Plugin.response event = Some text ->
      100 <= String.length text ->
      let params :=
        mkAddObservationParams (Some discovery) (slice0 1000 text)
          (Some []) (Some []) (Plugin.sessionId event) in
      (String.length (content params) = Nat.min 1000 (String.length text)
       /\ prefix (content params) text = true)
      /\ (forall R (add : ClaudeMemClient -> AddObservationParams -> M R),
             Plugin.afterAgentResponse_with add ctx event srv tr
             = match add (hook_client ctx) params srv tr with
               | (Normal _, tr') => (Normal tt, tr')
               | (Throw e, tr') =>
                   (Normal tt,
                    EvConsoleDebug "Failed to capture observation:" e :: tr')
               end)
      /\ requests_of (snd (Plugin.afterAgentResponse ctx event srv tr))
         = observation_request (hook_client ctx) params :: requests_of tr)
  /\ (capturing ctx = false
      \/ Plugin.response event = None
      \/ (exists text,
             Plugin.response event = Some text /\ String.length text < 100) ->
      forall R (add : ClaudeMemClient -> AddObservationParams -> M R),
        Plugin.afterAgentResponse_with add ctx event srv tr = (Normal tt, tr))
  /\ (forall R (add : ClaudeMemClient -> AddObservationParams -> M R),
         fst (Plugin.afterAgentResponse_with add ctx event srv tr) = Normal tt).
Proof.
  unfold capturing, hook_client.
  destruct ctx as [cfg]. destruct event as [resp sid]. simpl.
  set (conf := default cfg Plugin.empty_config).
  assert (Hcall : forall text R (add : ClaudeMemClient -> AddObservationParams -> M R),
             negb (Plugin.is_false (Plugin.enabled conf))
             && negb (Plugin.is_false (Plugin.autoCapture conf)) = true ->
             resp = Some text -> 100 <= String.length text ->
             Plugin.afterAgentResponse_with add (Plugin.mkContext cfg)
               (Plugin.mkEvent resp sid) srv tr
             = match add (new (Plugin.apiUrl conf))
                       (mkAddObservationParams (Some discovery) (slice0 1000 text)
                          (Some []) (Some []) sid) srv tr with
               | (Normal _, tr') => (Normal tt, tr')
               | (Throw e, tr') =>
                   (Normal tt,
                    EvConsoleDebug "Failed to capture observation:" e :: tr')
               end).
  { intros text R add Hg -> Hlen.
    unfold Plugin.afterAgentResponse_with. cbn [Plugin.config Plugin.response Plugin.sessionId].
    fold conf. apply andb_true_iff in Hg. destruct Hg as [He Ha].
    apply negb_true_iff in He, Ha. rewrite He, Ha. cbn [orb].
    rewrite (long_text_is_captured text Hlen).
    unfold Plugin.capture_params, try_catch, bind, ret, console_debug.
    destruct (add _ _ srv tr) as [[a | e] tr']; reflexivity. }
  split; [| split].
  - intros text Hg Hr Hlen. split; [| split].
    + split; [apply slice0_length | apply slice0_prefix].
    + intros R add. apply Hcall; assumption.
    + unfold Plugin.afterAgentResponse. rewrite (Hcall text _ _ Hg Hr Hlen).
      match goal with
      | |- context [addObservation ?c ?p srv tr] =>
          pose proof (addObservation_requests c p srv tr) as Hq;
          destruct (addObservation c p srv tr) as [[a | e] tr']; exact Hq
      end.
  - intros Hgate R add.
    unfold Plugin.afterAgentResponse_with. cbn [Plugin.config Plugin.response Plugin.sessionId].
    fold conf.
    destruct (Plugin.is_false (Plugin.enabled conf)
              || Plugin.is_false (Plugin.autoCapture conf)) eqn:Hg; [reflexivity |].
    destruct Hgate as [Hc | [-> | (text & -> & Hlt)]].
    + apply orb_false_iff in Hg. destruct Hg as [He Ha].
      rewrite He, Ha in Hc. discriminate Hc.
    + reflexivity.
    + apply Nat.ltb_lt in Hlt. rewrite Hlt, orb_true_r. reflexivity.
  - intros R add.
    unfold Plugin.afterAgentResponse_with. cbn [Plugin.config Plugin.response Plugin.sessionId].
    fold conf.
    destruct (Plugin.is_false (Plugin.enabled conf)
              || Plugin.is_false (Plugin.autoCapture conf)); [reflexivity |].
    destruct resp as [text |]; [| reflexivity].
    destruct (negb (truthy_string text) || (String.length text <? 100)%nat);
      [reflexivity |].
    unfold try_catch, bind, ret, console_debug.
    destruct (add _ _ srv tr) as [[a | e] tr']; reflexivity.
Qed.

Lemma afterAgentResponse_captures_once_witness :
  requests_of
    (snd (Plugin.afterAgentResponse (Plugin.mkContext None)
            (Plugin.mkEvent (Some long_text) (Some "s-1"))
            (always (http_ok (JObj [("id", JNum 7)]))) []))
  = [observation_request localhost
       (mkAddObservationParams (Some discovery) long_text (Some []) (Some [])
          (Some "s-1"))]
  /\ Plugin.afterAgentResponse (Plugin.mkContext None)
       (Plugin.mkEvent (Some "ok") (Some "s-1"))
       (always (http_ok (JObj [("id", JNum 7)]))) []
     = (Normal tt, []).
Proof.
  split.
  - apply (proj1 (afterAgentResponse_captures_once (Plugin.mkContext None)
                    (Plugin.mkEvent (Some long_text) (Some "s-1"))
                    (always (http_ok (JObj [("id", JNum 7)]))) [])
             long_text eq_refl eq_refl).
    apply Nat.leb_le. reflexivity.
  - apply (proj1 (proj2 (afterAgentResponse_captures_once (Plugin.mkContext None)
                           (Plugin.mkEvent (Some "ok") (Some "s-1"))
                           (always (http_ok (JObj [("id", JNum 7)]))) []))).
    right. right. exists "ok". split; [reflexivity | apply Nat.ltb_lt; reflexivity].
Defined.

(** ** Further properties of the client *)

Lemma strip_trailing_slash_added s : strip_trailing_slash (s ++ "/")%string = s.
Proof.
  induction s as [| ch s IH]; [reflexivity |].
  simpl. rewrite IH. destruct s; reflexivity.
Qed.

Lemma strip_trailing_slash_none s :
  ends_with_slash s = false -> strip_trailing_slash s = s.
Proof.
  induction s as [| ch s IH]; [reflexivity |].
  destruct s as [| ch' s'].
  - simpl. intros ->. reflexivity.
  - intros H. change (String ch (strip_trailing_slash (String ch' s')) = String ch (String ch' s')).
    rewrite IH; [reflexivity | exact H].
Qed.

(** X1. The constructor normalises the base URL: one trailing slash is
    dropped, a URL without trailing slash is kept as it is, and no
    argument means http://localhost:37777; so a URL given with or
    without the slash makes the same client. *)
Theorem new_normalises_base_url :
  (forall s, baseUrl (new (Some (s ++ "/")%string)) = s)
  /\ (forall s, ends_with_slash s = false -> baseUrl (new (Some s)) = s)
  /\ (forall s, ends_with_slash s = false -> new (Some (s ++ "/")%string) = new (Some s))
  /\ baseUrl (new None) = "http://localhost:37777".
Proof.
  unfold new. simpl. repeat split; intros.
  - apply strip_trailing_slash_added.
  - apply strip_trailing_slash_none. assumption.
  - rewrite strip_trailing_slash_added, strip_trailing_slash_none by assumption.
    reflexivity.
Qed.

Lemma new_normalises_base_url_witness :
  new (Some ("http://mem.local:8080" ++ "/")%string) = new (Some "http://mem.local:8080").
Proof.
  apply (proj1 (proj2 (proj2 new_normalises_base_url)) "http://mem.local:8080").
  reflexivity.
Defined.

(** Name the parsed body of a success response. *)
Ltac delivered_body H :=
  match type of H with
  | nothing_delivered ?o =>
      match goal with
      | Hok : ok ?r = true, Hb : json_body ?r = inr ?d |- _ =>
          let S := fresh "S" in
          assert (S : succeeds_with o d)
            by (exists r; repeat split; solve [assumption | reflexivity]);
          apply H in S; discriminate S
      end
  end.

(** X2. [getStatus] issues one GET of /api/health and logs nothing. It
    reports [running: true], with the [version] of the body, exactly
    when the response is a success with a parsed body that is not
    null; a non-success status is reported as ["HTTP <status>"], a
    thrown [Error] by its message and any other thrown value as
    ["Connection failed"]. *)
Theorem getStatus_reports c srv tr :
  snd (getStatus c srv tr) = EvFetch (health_request c) :: tr
  /\ (forall data,
      delivers (srv (requests_of tr) (health_request c)) data ->
      fst (getStatus c srv tr) = Normal (mkStatus true (own data "version") None))
  /\ (nothing_delivered (srv (requests_of tr) (health_request c)) ->
      exists e, fst (getStatus c srv tr) = Normal (mkStatus false None (Some e)))
  /\ (forall r,
      srv (requests_of tr) (health_request c) = Resolves r -> ok r = false ->
      fst (getStatus c srv tr)
      = Normal (mkStatus false None (Some ("HTTP " ++ String_of_Z (status r))%string)))
  /\ (forall name message,
      srv (requests_of tr) (health_request c) = Rejects (JsError name message) ->
      fst (getStatus c srv tr) = Normal (mkStatus false None (Some message)))
  /\ (forall v,
      srv (requests_of tr) (health_request c) = Rejects (Thrown v) ->
      fst (getStatus c srv tr)
      = Normal (mkStatus false None (Some "Connection failed"))).
Proof.
  split; [run; reflexivity |]. split; [| split; [| repeat split]].
  - intros data [Hs Hn]. answer Hs. destruct data; try congruence; reflexivity.
  - intros H. run; try (eexists; reflexivity); delivered_body H.
  - intros r Hr Hok. autounfold with client. rewrite Hr. simpl. rewrite Hok.
    reflexivity.
  - intros name message Hr. autounfold with client. rewrite Hr. reflexivity.
  - intros v Hr. autounfold with client. rewrite Hr. reflexivity.
Qed.

Lemma getStatus_reports_witness :
  fst (getStatus localhost
         (always (http_ok (JObj [("version", JStr "1.4.2")]))) [])
  = Normal (mkStatus true (Some (JStr "1.4.2")) None)
  /\ fst (getStatus localhost (always (http_status 502)) [])
     = Normal (mkStatus false None (Some "HTTP 502")).
Proof.
  split.
  - apply (proj1 (proj2 (getStatus_reports localhost
             (always (http_ok (JObj [("version", JStr "1.4.2")]))) []))
             (JObj [("version", JStr "1.4.2")])).
    split; [eexists; repeat split; reflexivity | discriminate].
  - apply (proj1 (proj2 (proj2 (proj2 (getStatus_reports localhost
             (always (http_status 502)) []))))
             (mkResponse 502 (inr (JObj []))) eq_refl eq_refl).
Defined.

(** X3. [addObservation] reports success exactly when the POST is
    answered with a success status and a parsed body that is not null,
    and then hands on the [id] of the body (possibly none) and logs
    nothing; in every other case, a 2xx answer with an unparsable or
    null body included, it logs one error and returns
    [{success: false}]. *)
Theorem addObservation_success_needs_body c params srv tr :
  (forall data,
      delivers (srv (requests_of tr) (observation_request c params)) data ->
      addObservation c params srv tr
      = (Normal (mkAddResult true (own data "id")),
         EvFetch (observation_request c params) :: tr))
  /\ (nothing_delivered (srv (requests_of tr) (observation_request c params)) ->
      exists e,
        addObservation c params srv tr
        = (Normal (mkAddResult false None),
           EvConsoleError "Claude-mem add observation error:" e
             :: EvFetch (observation_request c params) :: tr)).
Proof.
  split.
  - intros data [Hs Hn]. answer Hs. destruct data; try congruence; reflexivity.
  - intros H. run; try (eexists; reflexivity); delivered_body H.
Qed.

Lemma addObservation_success_needs_body_witness :
  fst (addObservation localhost
         (mkAddObservationParams (Some change) "moved" None None None)
         (always (Resolves (mkResponse 204 (inl (JsError "SyntaxError" "Unexpected end of JSON input"))))) [])
  = Normal (mkAddResult false None).
Proof.
  destruct (proj2 (addObservation_success_needs_body localhost
              (mkAddObservationParams (Some change) "moved" None None None)
              (always (Resolves (mkResponse 204
                 (inl (JsError "SyntaxError" "Unexpected end of JSON input"))))) []))
    as [e He].
  - intros data (r & Hr & _ & Hb). injection Hr as <-. discriminate Hb.
  - rewrite He. reflexivity.
Defined.

(** X4. [getStats] hands on the parsed body of a success response as it
    is, null included, and logs nothing. *)
Theorem getStats_passes_body c srv tr data :
  succeeds_with (srv (requests_of tr) (stats_request c)) data ->
  getStats c srv tr = (Normal data, EvFetch (stats_request c) :: tr).
Proof.
  intros Hs. answer Hs. reflexivity.
Qed.

Lemma getStats_passes_body_witness :
  getStats localhost (always (http_ok JNull)) []
  = (Normal JNull, [EvFetch (stats_request localhost)]).
Proof.
  apply (getStats_passes_body localhost (always (http_ok JNull)) [] JNull).
  eexists. repeat split; reflexivity.
Defined.

(** X5. The requests of each method: one for the six plain methods, the
    primary alone or the primary and then one fallback for
    [getRecentContext] and [getHowItWorks], never more. All of them go
    to the base URL of the client; all but the POST of
    [addObservation] are GETs without body. *)
Theorem methods_issue_their_requests c srv tr :
  issued (getStatus c srv tr) tr [health_request c]
  /\ (forall q o, issued (search c q o srv tr) tr [search_request c q o])
  /\ (forall o, issued (getTimeline c o srv tr) tr [timeline_request c o])
  /\ (forall o,
      issued (getRecentContext c o srv tr) tr [recent_request c o]
      \/ issued (getRecentContext c o srv tr) tr
           [inject_request c o; recent_request c o])
  /\ (forall p, issued (addObservation c p srv tr) tr [observation_request c p])
  /\ issued (getStats c srv tr) tr [stats_request c]
  /\ (forall t o, issued (searchByType c t o srv tr) tr [by_type_request c t o])
  /\ (forall n,
      issued (getDecisions c n srv tr) tr
        [by_type_request c (Some decision)
           (TypeOptions.mk (Some (default n (Num 20))))])
  /\ (forall q,
      issued (getHowItWorks c q srv tr) tr [how_it_works_request c q]
      \/ issued (getHowItWorks c q srv tr) tr
           [search_request c q ten; how_it_works_request c q])
  /\ (reads c (health_request c)
      /\ reads c (stats_request c)
      /\ (forall q o, reads c (search_request c q o))
      /\ (forall o, reads c (timeline_request c o))
      /\ (forall o, reads c (recent_request c o) /\ reads c (inject_request c o))
      /\ (forall t o, reads c (by_type_request c t o))
      /\ (forall q, reads c (how_it_works_request c q)))
  /\ (forall p,
      url_base (observation_request c p) = baseUrl c
      /\ method (observation_request c p) = POST
      /\ body (observation_request c p) <> None).
Proof.
  unfold issued, reads.
  repeat match goal with |- _ /\ _ => split end; intros;
    try (repeat split; (reflexivity || discriminate));
    run;
    solve [reflexivity | left; reflexivity | right; reflexivity].
Qed.

(** X6. The query string of [getTimeline] has [observation_id] and
    [limit], that of [getRecentContext] has [project_path] and [limit],
    each exactly when the option is present and truthy: an observation
    id of 0 is not sent, and the timeline around observation 0 is
    requested like the timeline with no centre. *)
Theorem timeline_and_context_params_iff_truthy :
  (forall o,
      (has_param "observation_id" (timeline_params o) = true
       <-> given truthy_number (TimelineOptions.observationId o))
      /\ (has_param "limit" (timeline_params o) = true
          <-> given truthy_number (TimelineOptions.limit o)))
  /\ (forall o,
      (has_param "project_path" (context_params o) = true
       <-> given truthy_string (ContextOptions.projectPath o))
      /\ (has_param "limit" (context_params o) = true
          <-> given truthy_number (ContextOptions.limit o)))
  /\ (forall c l b a,
      timeline_request c (TimelineOptions.mk (Some (Num 0)) l b a)
      = timeline_request c (TimelineOptions.mk None l b a)).
Proof.
  unfold timeline_params, context_params, spread_if, has_param, given.
  split; [| split].
  - intros [[n |] [l |] b a]; simpl;
      try destruct (truthy_number n) eqn:Hn;
      try destruct (truthy_number l) eqn:Hl;
      simpl; repeat split; intros; try discriminate; eauto;
      repeat match goal with
             | H : exists _, _ |- _ => destruct H as [? [? ?]]
             | H : Some _ = Some _ |- _ => injection H as H; subst
             end;
      simpl in *; try discriminate; try congruence.
  - intros [[p |] [l |]]; simpl;
      try destruct (truthy_string p) eqn:Hp;
      try destruct (truthy_number l) eqn:Hl;
      simpl; repeat split; intros; try discriminate; eauto;
      repeat match goal with
             | H : exists _, _ |- _ => destruct H as [? [? ?]]
             | H : Some _ = Some _ |- _ => injection H as H; subst
             end;
      simpl in *; try discriminate; try congruence.
  - reflexivity.
Qed.

(** X7. [searchByType] always sends the [type] parameter, with the name
    of the type, and an omitted type is searched as [discovery]; the
    [limit] parameter is sent exactly when present and truthy. *)
Theorem searchByType_type_defaults_to_discovery c srv tr :
  (forall t o,
      param "type" (by_type_params t o)
      = Some (ObservationType_string (default t discovery)))
  /\ (forall o,
      searchByType c None o srv tr = searchByType c (Some discovery) o srv tr)
  /\ (forall t o,
      has_param "limit" (by_type_params t o) = true
      <-> given truthy_number (TypeOptions.limit o))
  /\ (forall t,
      In (ObservationType_string (default t discovery))
        ["decision"; "bugfix"; "feature"; "refactor"; "discovery"; "change"]).
Proof.
  split; [reflexivity |]. split; [reflexivity |]. split.
  - intros t [[l |]]; unfold by_type_params, spread_if, has_param, given; simpl;
      try destruct (truthy_number l) eqn:Hl;
      simpl; repeat split; intros; try discriminate; eauto;
      repeat match goal with
             | H : exists _, _ |- _ => destruct H as [? [? ?]]
             | H : Some _ = Some _ |- _ => injection H as H; subst
             end;
      simpl in *; try discriminate; try congruence.
  - intros [[] |]; simpl; tauto.
Qed.

(** A parameter that is there has one of the given names. *)
Ltac name_of_param :=
  unfold has_param; cbn - [String.eqb];
  repeat match goal with
         | |- context [String.eqb ?a ?k] =>
             destruct (String.eqb_spec a k);
             [subst; intros _; cbn [In]; auto 10 | cbn - [String.eqb]]
         end;
  intros; discriminate.

(** X8. No other parameter is ever sent: the query string of [search]
    has no name besides query, limit, type and max_date (the
    [projectPath] option is not sent), that of [getTimeline] none
    besides observation_id and limit (the [before] and [after] options
    are not sent), that of [getRecentContext] none besides project_path
    and limit. *)
Theorem only_documented_params_are_sent k :
  (forall q o,
      has_param k (search_params q o) = true ->
      In k ["query"; "limit"; "type"; "max_date"])
  /\ (forall o,
      has_param k (timeline_params o) = true ->
      In k ["observation_id"; "limit"])
  /\ (forall o,
      has_param k (context_params o) = true ->
      In k ["project_path"; "limit"])
  /\ (forall t o,
      has_param k (by_type_params t o) = true ->
      In k ["type"; "limit"]).
Proof.
  unfold search_params, timeline_params, context_params, by_type_params, spread_if.
  repeat split.
  - intros q [[n |] [t |] p [d |]]; cbn - [String.eqb has_param];
      try destruct (truthy_number n); try destruct (truthy_string t);
      try destruct (truthy_string d); name_of_param.
  - intros [[n |] [l |] b a]; cbn - [String.eqb has_param];
      try destruct (truthy_number n); try destruct (truthy_number l);
      name_of_param.
  - intros [[p |] [l |]]; cbn - [String.eqb has_param];
      try destruct (truthy_string p); try destruct (truthy_number l);
      name_of_param.
  - intros t [[l |]]; cbn - [String.eqb has_param];
      try destruct (truthy_number l); name_of_param.
Qed.

Lemma only_documented_params_are_sent_witness :
  In "max_date" ["query"; "limit"; "type"; "max_date"].
Proof.
  apply (proj1 (only_documented_params_are_sent "max_date") "auth"
           (SearchOptions.mk None None (Some "/repo") (Some "2025-06-01"))).
  reflexivity.
Defined.

(** X9. When the primary endpoint of [getRecentContext] answers with a
    non-success status and the fallback endpoint answers with a
    success, the body of the fallback is decoded like a primary one (a
    bare array or an [observations] wrapper gives the array) and
    nothing is logged. *)
Theorem getRecentContext_uses_fallback_body c options srv tr r xs body :
  srv (requests_of tr) (recent_request c options) = Resolves r ->
  ok r = false ->
  succeeds_with
    (srv (recent_request c options :: requests_of tr) (inject_request c options))
    body ->
  carries "observations" xs body ->
  getRecentContext c options srv tr
  = (Normal (JArr xs),
     EvFetch (inject_request c options) :: EvFetch (recent_request c options) :: tr).
Proof.
  intros Hr Hok (r2 & Hr2 & Hok2 & Hb2) Hc.
  pose proof (fun s t => field_or_self_carries "observations" xs body s t Hc) as D.
  unfold field_or_self, bind, ret, get in D.
  autounfold with client. rewrite Hr. simpl. rewrite Hok. simpl.
  rewrite Hr2. simpl. rewrite Hok2. simpl. rewrite Hb2. simpl.
  rewrite D. reflexivity.
Qed.

Lemma getRecentContext_uses_fallback_body_witness :
  fst (getRecentContext localhost ContextOptions.empty
         (recent_down (http_ok (JObj [("observations", JArr [JStr "o1"])]))) [])
  = Normal (JArr [JStr "o1"]).
Proof.
  rewrite (getRecentContext_uses_fallback_body localhost ContextOptions.empty
             (recent_down (http_ok (JObj [("observations", JArr [JStr "o1"])]))) []
             (mkResponse 404 (inr (JObj []))) [JStr "o1"]
             (JObj [("observations", JArr [JStr "o1"])]) eq_refl eq_refl).
  - reflexivity.
  - eexists. repeat split; reflexivity.
  - right. eexists. split; reflexivity.
Defined.

(** X10. The single-request list operations are silent when they are
    answered: a success response with a parsed body that is not null
    leaves only the request in the trace. Whenever nothing is
    delivered they log exactly one error, under their own label, and
    return the empty sequence. *)
Theorem list_operations_log_once_on_failure c srv tr :
  (forall q o,
      (forall data,
          delivers (srv (requests_of tr) (search_request c q o)) data ->
          snd (search c q o srv tr) = EvFetch (search_request c q o) :: tr)
      /\ (nothing_delivered (srv (requests_of tr) (search_request c q o)) ->
          exists e,
            search c q o srv tr
            = (Normal (JArr []),
               EvConsoleError "Claude-mem search error:" e
                 :: EvFetch (search_request c q o) :: tr)))
  /\ (forall o,
      (forall data,
          delivers (srv (requests_of tr) (timeline_request c o)) data ->
          snd (getTimeline c o srv tr) = EvFetch (timeline_request c o) :: tr)
      /\ (nothing_delivered (srv (requests_of tr) (timeline_request c o)) ->
          exists e,
            getTimeline c o srv tr
            = (Normal (JArr []),
               EvConsoleError "Claude-mem timeline error:" e
                 :: EvFetch (timeline_request c o) :: tr)))
  /\ (forall t o,
      (forall data,
          delivers (srv (requests_of tr) (by_type_request c t o)) data ->
          snd (searchByType c t o srv tr) = EvFetch (by_type_request c t o) :: tr)
      /\ (nothing_delivered (srv (requests_of tr) (by_type_request c t o)) ->
          exists e,
            searchByType c t o srv tr
            = (Normal (JArr []),
               EvConsoleError "Claude-mem search by type error:" e
                 :: EvFetch (by_type_request c t o) :: tr))).
Proof.
  repeat split; intros;
    try match goal with
        | H : delivers _ ?data |- _ =>
            let Hs := fresh "Hs" in
            let Hn := fresh "Hn" in
            destruct H as [Hs Hn]; answer Hs;
            destruct data; try congruence; reflexivity
        end;
    match goal with
    | H : nothing_delivered _ |- _ =>
        run; try (eexists; reflexivity); delivered_body H
    end.
Qed.

Lemma list_operations_log_once_on_failure_witness :
  snd (search localhost "auth" SearchOptions.empty (always (http_ok (JArr []))) [])
  = [EvFetch (search_request localhost "auth" SearchOptions.empty)].
Proof.
  apply (proj1 (proj1 (list_operations_log_once_on_failure localhost
                         (always (http_ok (JArr []))) [])
                  "auth" SearchOptions.empty) (JArr [])).
  split; [eexists; repeat split; reflexivity | discriminate].
Defined.

(** X11. A non-success status is logged as an [Error] whose message
    names the operation and the status; for [getRecentContext], turned
    down on both endpoints, the status named is that of the primary
    endpoint, whatever the fallback answered. *)
Theorem non_success_status_is_logged c srv tr r :
  ok r = false ->
  (forall q o,
      srv (requests_of tr) (search_request c q o) = Resolves r ->
      search c q o srv tr
      = (Normal (JArr []),
         EvConsoleError "Claude-mem search error:"
           (new_Error ("Search failed: " ++ String_of_Z (status r)))
           :: EvFetch (search_request c q o) :: tr))
  /\ (forall o,
      srv (requests_of tr) (timeline_request c o) = Resolves r ->
      getTimeline c o srv tr
      = (Normal (JArr []),
         EvConsoleError "Claude-mem timeline error:"
           (new_Error ("Timeline failed: " ++ String_of_Z (status r)))
           :: EvFetch (timeline_request c o) :: tr))
  /\ (forall p,
      srv (requests_of tr) (observation_request c p) = Resolves r ->
      addObservation c p srv tr
      = (Normal (mkAddResult false None),
         EvConsoleError "Claude-mem add observation error:"
           (new_Error ("Add observation failed: " ++ String_of_Z (status r)))
           :: EvFetch (observation_request c p) :: tr))
  /\ (srv (requests_of tr) (stats_request c) = Resolves r ->
      getStats c srv tr
      = (Normal (JObj []),
         EvConsoleError "Claude-mem stats error:"
           (new_Error ("Stats failed: " ++ String_of_Z (status r)))
           :: EvFetch (stats_request c) :: tr))
  /\ (forall t o,
      srv (requests_of tr) (by_type_request c t o) = Resolves r ->
      searchByType c t o srv tr
      = (Normal (JArr []),
         EvConsoleError "Claude-mem search by type error:"
           (new_Error ("Search by type failed: " ++ String_of_Z (status r)))
           :: EvFetch (by_type_request c t o) :: tr))
  /\ (forall o r2,
      srv (requests_of tr) (recent_request c o) = Resolves r ->
      srv (recent_request c o :: requests_of tr) (inject_request c o)
        = Resolves r2 ->
      ok r2 = false ->
      getRecentContext c o srv tr
      = (Normal (JArr []),
         EvConsoleError "Claude-mem context error:"
           (new_Error ("Context failed: " ++ String_of_Z (status r)))
           :: EvFetch (inject_request c o) :: EvFetch (recent_request c o) :: tr)).
Proof.
  intros Hok.
  repeat match goal with |- _ /\ _ => split end; intros;
    autounfold with client;
    repeat match goal with
           | H : srv _ _ = Resolves _ |- _ => rewrite H; clear H; simpl
           | H : ok _ = false |- _ => rewrite H; simpl
           end;
    reflexivity.
Qed.

Lemma non_success_status_is_logged_witness :
  getRecentContext localhost ContextOptions.empty
    (recent_down (http_status 500)) []
  = (Normal (JArr []),
     [EvConsoleError "Claude-mem context error:"
        (JsError "Error" "Context failed: 404");
      EvFetch (inject_request localhost ContextOptions.empty);
      EvFetch (recent_request localhost ContextOptions.empty)]).
Proof.
  apply (proj2 (proj2 (proj2 (proj2 (proj2
           (non_success_status_is_logged localhost (recent_down (http_status 500)) []
              (mkResponse 404 (inr (JObj []))) eq_refl)))))
           ContextOptions.empty (mkResponse 500 (inr (JObj []))) eq_refl eq_refl eq_refl).
Defined.

(** ** Properties of the tools *)

Import Dyn.

Lemma pure_ret {A} (a : A) : pure (ret a).
Proof. intros srv tr. reflexivity. Qed.

Lemma pure_throw {A} e : pure (@throw A e).
Proof. intros srv tr. reflexivity. Qed.

Lemma pure_bind {A B} (m : M A) (k : A -> M B) :
  pure m -> (forall a, pure (k a)) -> pure (bind m k).
Proof.
  intros Hm Hk srv tr. unfold bind. specialize (Hm srv tr).
  destruct (m srv tr) as [[a | e] tr']; simpl in Hm; subst; [apply Hk | reflexivity].
Qed.

Lemma pure_get data k : pure (get data k).
Proof. destruct data; intros srv tr; reflexivity. Qed.

Lemma pure_member o k : pure (member o k).
Proof. destruct o; [apply pure_get | apply pure_throw]. Qed.

Lemma pure_length_of v : pure (length_of v).
Proof. destruct v; intros srv tr; reflexivity. Qed.

Lemma pure_date_of x name fallback : pure (date_of x name fallback).
Proof. destruct x as [[] |]; intros srv tr; reflexivity. Qed.

Lemma pure_slice_of x name n : pure (slice_of x name n).
Proof. destruct x as [[] |]; intros srv tr; reflexivity. Qed.

Lemma pure_joined_of x name : pure (joined_of x name).
Proof. destruct x as [[] |]; intros srv tr; reflexivity. Qed.

Lemma pure_mapi_M {A B} (f : A -> nat -> M B) xs :
  (forall x i, pure (f x i)) -> forall i, pure (mapi_M f xs i).
Proof.
  intros Hf. induction xs as [| x xs IH]; intros i; simpl.
  - apply pure_ret.
  - apply pure_bind; [apply Hf |]. intros y.
    apply pure_bind; [apply IH |]. intros ys. apply pure_ret.
Qed.

Lemma pure_Array_map v name f :
  (forall x i, pure (f x i)) -> pure (Array_map v name f).
Proof.
  intros Hf. destruct v; simpl; try apply pure_throw. apply pure_mapi_M, Hf.
Qed.

Create HintDb purity discriminated.
#[local] Hint Resolve pure_ret pure_throw pure_get pure_member pure_length_of
  pure_date_of pure_slice_of pure_joined_of : purity.

Ltac prove_pure :=
  repeat first [apply pure_bind; [solve [auto with purity] | intros ?]
               | solve [auto with purity]].

Lemma pure_format_result r i : pure (Tools.format_result r i).
Proof. unfold Tools.format_result. prove_pure. Qed.

Lemma pure_format_observation obs i : pure (Tools.format_observation obs i).
Proof. unfold Tools.format_observation. prove_pure. Qed.

Lemma pure_format_context obs i : pure (Tools.format_context obs i).
Proof. unfold Tools.format_context. prove_pure. Qed.

(** What follows a client call in a tool adds nothing to its trace. *)
Lemma bind_pure_trace {A B} (m : M A) (k : A -> M B) srv tr :
  (forall a, pure (k a)) -> snd (bind m k srv tr) = snd (m srv tr).
Proof.
  intros Hk. unfold bind. destruct (m srv tr) as [[a | e] tr']; simpl;
    [apply Hk | reflexivity].
Qed.

(** X12. The tools add nothing of their own to the trace: each issues
    exactly the requests of its one client call ([search] with the
    limit of the arguments, else [maxResults], else 10; [getTimeline]
    with limit 20 by default; [getRecentContext] with limit 5 by
    default) and logs nothing more. A limit of 0 in the arguments is
    not replaced by the default, and is then left out of the query
    string. *)
Theorem tools_issue_the_client_call config c srv tr :
  (forall args,
      snd (Tools.search_execute config c args srv tr)
      = snd (search c (Tools.SearchArgs.query args)
               (search_tool_options config args) srv tr))
  /\ (forall args,
      snd (Tools.timeline_execute c args srv tr)
      = snd (getTimeline c (timeline_tool_options args) srv tr))
  /\ (forall args,
      snd (Tools.context_execute c args srv tr)
      = snd (getRecentContext c (context_tool_options args) srv tr))
  /\ (forall q ty,
      param "limit"
        (search_params q
           (search_tool_options Plugin.empty_config (Tools.SearchArgs.mk q None ty)))
      = Some "10"
      /\ param "limit" (timeline_params (timeline_tool_options (Tools.TimelineArgs.mk None None)))
         = Some "20"
      /\ param "limit" (context_params (context_tool_options (Tools.ContextArgs.mk None None)))
         = Some "5")
  /\ (forall q ty oid p,
      has_param "limit"
        (search_params q
           (search_tool_options config (Tools.SearchArgs.mk q (Some (Num 0)) ty)))
      = false
      /\ has_param "limit"
           (timeline_params
              (timeline_tool_options (Tools.TimelineArgs.mk oid (Some (Num 0)))))
         = false
      /\ has_param "limit"
           (context_params
              (context_tool_options (Tools.ContextArgs.mk p (Some (Num 0)))))
         = false).
Proof.
  split; [| split; [| split; [| split]]].
  - intros args. unfold Tools.search_execute.
    apply bind_pure_trace. intros results.
    apply pure_bind; [apply pure_length_of |]. intros len.
    destruct (is_zero len); [apply pure_ret |].
    apply pure_bind; [apply pure_Array_map, pure_format_result |]. intros items.
    apply pure_bind; [apply pure_length_of |]. intros len'. apply pure_ret.
  - intros args. unfold Tools.timeline_execute.
    apply bind_pure_trace. intros results.
    apply pure_bind; [apply pure_length_of |]. intros len.
    destruct (is_zero len); [apply pure_ret |].
    apply pure_bind; [apply pure_Array_map, pure_format_observation |]. intros items.
    apply pure_bind; [apply pure_length_of |]. intros len'. apply pure_ret.
  - intros args. unfold Tools.context_execute.
    apply bind_pure_trace. intros results.
    apply pure_bind.
    + destruct (negb (truthy results)); [apply pure_ret |].
      apply pure_bind; [apply pure_length_of |]. intros len. apply pure_ret.
    + intros [|]; [apply pure_ret |].
      apply pure_bind; [apply pure_Array_map, pure_format_context |]. intros items.
      apply pure_ret.
  - intros q ty. repeat split.
  - intros q ty oid p. unfold has_param. repeat split.
    + destruct ty as [t |]; [destruct t |]; reflexivity.
    + destruct oid as [n |]; [destruct (truthy_number n) eqn:Hn |];
        unfold timeline_params, spread_if; simpl; rewrite ?Hn; reflexivity.
    + destruct p as [s |]; [destruct s |]; reflexivity.
Qed.

Lemma bind_run {A B} (m : M A) (k : A -> M B) srv tr a tr' :
  m srv tr = (Normal a, tr') -> bind m k srv tr = k a srv tr'.
Proof. intros H. unfold bind. rewrite H. reflexivity. Qed.

Lemma bind_fst {A B} (m : M A) (k : A -> M B) srv tr a :
  fst (m srv tr) = Normal a ->
  fst (bind m k srv tr) = fst (k a srv (snd (m srv tr))).
Proof.
  unfold bind. destruct (m srv tr) as [[a' | e] tr']; simpl; intros H;
    [injection H as -> | discriminate H]; reflexivity.
Qed.

(** A success response that carries [xs], seen from the caller. *)
Lemma search_delivers_array c q o srv tr xs body :
  succeeds_with (srv (requests_of tr) (search_request c q o)) body ->
  carries "results" xs body ->
  search c q o srv tr = (Normal (JArr xs), EvFetch (search_request c q o) :: tr).
Proof.
  intros Hs Hc.
  pose proof (fun s t => field_or_self_carries "results" xs body s t Hc) as D.
  unfold field_or_self, bind, ret, get in D. answer Hs. rewrite D. reflexivity.
Qed.

Lemma getTimeline_delivers_array c o srv tr xs body :
  succeeds_with (srv (requests_of tr) (timeline_request c o)) body ->
  carries "observations" xs body ->
  getTimeline c o srv tr = (Normal (JArr xs), EvFetch (timeline_request c o) :: tr).
Proof.
  intros Hs Hc.
  pose proof (fun s t => field_or_self_carries "observations" xs body s t Hc) as D.
  unfold field_or_self, bind, ret, get in D. answer Hs. rewrite D. reflexivity.
Qed.

Lemma getRecentContext_delivers_array c o srv tr xs body :
  succeeds_with (srv (requests_of tr) (recent_request c o)) body ->
  carries "observations" xs body ->
  getRecentContext c o srv tr
  = (Normal (JArr xs), EvFetch (recent_request c o) :: tr).
Proof.
  intros Hs Hc.
  pose proof (fun s t => field_or_self_carries "observations" xs body s t Hc) as D.
  unfold field_or_self, bind, ret, get in D. answer Hs. rewrite D. reflexivity.
Qed.

(** A success response with an object that lacks the field, seen from
    the caller. *)
Lemma search_delivers_object c q o srv tr fields :
  succeeds_with (srv (requests_of tr) (search_request c q o)) (JObj fields) ->
  exposes "results" (JObj fields) = false ->
  search c q o srv tr
  = (Normal (JObj fields), EvFetch (search_request c q o) :: tr).
Proof.
  intros Hs He. answer Hs. simpl in He.
  destruct (lookup "results" fields) as [[] |]; simpl; try discriminate He;
    reflexivity.
Qed.

Lemma getTimeline_delivers_object c o srv tr fields :
  succeeds_with (srv (requests_of tr) (timeline_request c o)) (JObj fields) ->
  exposes "observations" (JObj fields) = false ->
  getTimeline c o srv tr
  = (Normal (JObj fields), EvFetch (timeline_request c o) :: tr).
Proof.
  intros Hs He. answer Hs. simpl in He.
  destruct (lookup "observations" fields) as [[] |]; simpl; try discriminate He;
    reflexivity.
Qed.

Lemma getRecentContext_delivers_object c o srv tr fields :
  succeeds_with (srv (requests_of tr) (recent_request c o)) (JObj fields) ->
  exposes "observations" (JObj fields) = false ->
  getRecentContext c o srv tr
  = (Normal (JObj fields), EvFetch (recent_request c o) :: tr).
Proof.
  intros Hs He. answer Hs. simpl in He.
  destruct (lookup "observations" fields) as [[] |]; simpl; try discriminate He;
    reflexivity.
Qed.

(** X13. The plugin registers its three tools unless the configuration
    has [enabled: false]: a missing configuration, a missing flag and
    [enabled: true] all register them, whatever [autoCapture] says; a
    registered tool has its name and runs against the client of the
    configured URL. *)
Theorem tools_are_gated_by_enabled ctx :
  (Tools.claudemem_search ctx = None
   <-> Plugin.enabled (config_of ctx) = Some false)
  /\ (Tools.claudemem_timeline ctx = None
      <-> Plugin.enabled (config_of ctx) = Some false)
  /\ (Tools.claudemem_context ctx = None
      <-> Plugin.enabled (config_of ctx) = Some false)
  /\ (Plugin.enabled (config_of ctx) <> Some false ->
      (exists d,
          Tools.claudemem_search ctx
          = Some (Tools.mkTool "claudemem_search" d
                    (Tools.search_execute (config_of ctx) (hook_client ctx))))
      /\ (exists d,
             Tools.claudemem_timeline ctx
             = Some (Tools.mkTool "claudemem_timeline" d
                       (Tools.timeline_execute (hook_client ctx))))
      /\ (exists d,
             Tools.claudemem_context ctx
             = Some (Tools.mkTool "claudemem_context" d
                       (Tools.context_execute (hook_client ctx))))).
Proof.
  unfold Tools.claudemem_search, Tools.claudemem_timeline, Tools.claudemem_context,
    config_of, hook_client.
  destruct (Plugin.enabled (default (Plugin.config ctx) Plugin.empty_config))
    as [[|] |]; cbn [Plugin.is_false];
    repeat split; intros; try discriminate; try congruence; eexists; reflexivity.
Qed.

Lemma tools_are_gated_by_enabled_witness :
  exists d,
    Tools.claudemem_search
      (Plugin.mkContext (Some (Plugin.mkConfig None None None (Some false))))
    = Some (Tools.mkTool "claudemem_search" d
              (Tools.search_execute
                 (Plugin.mkConfig None None None (Some false)) localhost)).
Proof.
  apply (proj2 (proj2 (proj2 (tools_are_gated_by_enabled
           (Plugin.mkContext (Some (Plugin.mkConfig None None None (Some false)))))))).
  discriminate.
Defined.

(** X14. When the service is down (every request fails) the three tools
    do not throw: each answers with its own "nothing found" text and
    no data. *)
Theorem tools_answer_nothing_found_on_failure config c srv tr :
  all_fail srv ->
  (forall args,
      fst (Tools.search_execute config c args srv tr)
      = Normal (Tools.mkResult "No relevant memories found." None))
  /\ (forall args,
      fst (Tools.timeline_execute c args srv tr)
      = Normal (Tools.mkResult "No timeline data available." None))
  /\ (forall args,
      fst (Tools.context_execute c args srv tr)
      = Normal (Tools.mkResult "No recent context available." None)).
Proof.
  intros H. repeat split; intros args.
  - unfold Tools.search_execute. rewrite (bind_fst _ _ srv tr (JArr [])); [reflexivity |].
    run; try reflexivity; contradict_failure H.
  - unfold Tools.timeline_execute. rewrite (bind_fst _ _ srv tr (JArr [])); [reflexivity |].
    run; try reflexivity; contradict_failure H.
  - unfold Tools.context_execute. rewrite (bind_fst _ _ srv tr (JArr [])); [reflexivity |].
    run; try reflexivity; contradict_failure H.
Qed.

Lemma tools_answer_nothing_found_on_failure_witness :
  fst (Tools.context_execute localhost (Tools.ContextArgs.mk None None)
         (always (Rejects (JsError "TypeError" "fetch failed"))) [])
  = Normal (Tools.mkResult "No recent context available." None).
Proof.
  apply (tools_answer_nothing_found_on_failure Plugin.empty_config localhost
           (always (Rejects (JsError "TypeError" "fetch failed"))) []).
  intros h r. reflexivity.
Defined.

Lemma mapi_M_all {A B} (f : A -> nat -> M B) (good : A -> bool) xs :
  (forall x i srv tr, good x = true -> exists y, f x i srv tr = (Normal y, tr)) ->
  forallb good xs = true ->
  forall i srv tr,
    exists ys, mapi_M f xs i srv tr = (Normal ys, tr)
               /\ List.length ys = List.length xs.
Proof.
  intros Hf. induction xs as [| x xs IH]; intros Hall i srv tr.
  - exists []. split; reflexivity.
  - simpl in Hall. apply andb_true_iff in Hall. destruct Hall as [Hx Hxs].
    destruct (Hf x i srv tr Hx) as [y Hy].
    destruct (IH Hxs (S i) srv tr) as (ys & Hys & Hlen).
    exists (y :: ys). split; [| simpl; congruence].
    simpl. rewrite (bind_run _ _ _ _ _ _ Hy), (bind_run _ _ _ _ _ _ Hys).
    reflexivity.
Qed.

(** Split the conjunction of field checks of [is_Observation]. *)
Ltac observation_fields H :=
  simpl in H;
  repeat match type of H with
         | _ && _ = true =>
             let H' := fresh "Hf" in
             apply andb_true_iff in H; destruct H as [H H']
         end.

Ltac typed_field k fields :=
  destruct (lookup k fields) as [[] |];
  simpl in *; try discriminate; simpl.

Lemma format_result_typed r i srv tr :
  is_SearchResult r = true ->
  exists s, Tools.format_result r i srv tr = (Normal s, tr).
Proof.
  intros H. destruct r as [| | | | | fields]; try discriminate H. simpl in H.
  destruct (lookup "observation" fields) as [obs |] eqn:Ho; [| discriminate H].
  destruct obs as [| | | | | ofields]; try discriminate H.
  observation_fields H.
  unfold Tools.format_result, bind, get, member, ret. rewrite Ho. simpl.
  typed_field "created_at" ofields; typed_field "content" ofields;
    typed_field "concepts" ofields; typed_field "files" ofields;
    eexists; reflexivity.
Qed.

Lemma format_observation_typed obs i srv tr :
  is_Observation obs = true ->
  exists s, Tools.format_observation obs i srv tr = (Normal s, tr).
Proof.
  intros H. destruct obs as [| | | | | ofields]; try discriminate H.
  observation_fields H.
  unfold Tools.format_observation, bind, get, ret. simpl.
  typed_field "created_at" ofields; typed_field "content" ofields;
    eexists; reflexivity.
Qed.

Lemma format_context_typed obs i srv tr :
  is_Observation obs = true ->
  exists s, Tools.format_context obs i srv tr = (Normal s, tr).
Proof.
  intros H. destruct obs as [| | | | | ofields]; try discriminate H.
  observation_fields H.
  unfold Tools.format_context, bind, get, ret. simpl.
  typed_field "content" ofields; eexists; reflexivity.
Qed.

Lemma is_zero_length {A} (xs : list A) :
  xs <> [] -> is_zero (Some (JNum (Z.of_nat (List.length xs)))) = false.
Proof. destruct xs; [congruence | reflexivity]. Qed.

(** X15. On a success response that carries a non-empty list of
    well-typed search results the search tool does not throw: it
    returns the list itself as data and a text that starts with the
    number of results and has one entry per result, and adds nothing to
    the trace of the request. *)
Theorem search_tool_digests_typed_results config c args srv tr xs body :
  succeeds_with
    (srv (requests_of tr)
       (search_request c (Tools.SearchArgs.query args)
          (search_tool_options config args))) body ->
  carries "results" xs body ->
  xs <> [] ->
  forallb is_SearchResult xs = true ->
  exists items,
    List.length items = List.length xs
    /\ Tools.search_execute config c args srv tr
       = (Normal
            (Tools.mkResult
               ("Found " ++ String_of_nat (List.length xs)
                  ++ " relevant memories:" ++ newline ++ newline
                  ++ String.concat (newline ++ newline) items)%string
               (Some (JArr xs))),
          EvFetch (search_request c (Tools.SearchArgs.query args)
                     (search_tool_options config args)) :: tr).
Proof.
  intros Hs Hc Hne Hall.
  pose proof (search_delivers_array _ _ _ _ _ _ _ Hs Hc) as Hrun.
  destruct (mapi_M_all Tools.format_result is_SearchResult xs
              format_result_typed Hall 0 srv
              (EvFetch (search_request c (Tools.SearchArgs.query args)
                          (search_tool_options config args)) :: tr))
    as (items & Hitems & Hlen).
  exists items. split; [exact Hlen |].
  unfold Tools.search_execute. unfold search_tool_options in Hrun.
  rewrite (bind_run _ _ _ _ _ _ Hrun).
  unfold length_of at 1. unfold bind at 1, ret at 1.
  rewrite (is_zero_length xs Hne).
  unfold Array_map. rewrite (bind_run _ _ _ _ _ _ Hitems).
  reflexivity.
Qed.

Lemma search_tool_digests_typed_results_witness :
  exists items,
    List.length items = 1
    /\ fst (Tools.search_execute Plugin.empty_config localhost
              (Tools.SearchArgs.mk "auth" None None)
              (always (http_ok (JObj [("results", JArr [sample_result])]))) [])
       = Normal
           (Tools.mkResult
              ("Found 1 relevant memories:" ++ newline ++ newline
                 ++ String.concat (newline ++ newline) items)%string
              (Some (JArr [sample_result]))).
Proof.
  destruct (search_tool_digests_typed_results Plugin.empty_config localhost
              (Tools.SearchArgs.mk "auth" None None)
              (always (http_ok (JObj [("results", JArr [sample_result])]))) []
              [sample_result] (JObj [("results", JArr [sample_result])]))
    as (items & Hlen & Hrun).
  - eexists. repeat split; reflexivity.
  - right. eexists. split; reflexivity.
  - discriminate.
  - reflexivity.
  - exists items. split; [exact Hlen | rewrite Hrun; reflexivity].
Defined.

(** X16. On a success response that carries a non-empty list of
    well-typed observations the timeline tool and the context tool do
    not throw: each returns the list itself as data and a text with one
    line per observation under its heading, and adds nothing to the
    trace of the request. *)
Theorem timeline_and_context_tools_digest_typed_observations c srv tr xs body :
  carries "observations" xs body ->
  xs <> [] ->
  forallb is_Observation xs = true ->
  (forall args,
      succeeds_with
        (srv (requests_of tr) (timeline_request c (timeline_tool_options args)))
        body ->
      exists items,
        List.length items = List.length xs
        /\ Tools.timeline_execute c args srv tr
           = (Normal
                (Tools.mkResult
                   ("Timeline (" ++ String_of_nat (List.length xs)
                      ++ " observations):" ++ newline ++ newline
                      ++ String.concat newline items)%string
                   (Some (JArr xs))),
              EvFetch (timeline_request c (timeline_tool_options args)) :: tr))
  /\ (forall args,
      succeeds_with
        (srv (requests_of tr) (recent_request c (context_tool_options args)))
        body ->
      exists items,
        List.length items = List.length xs
        /\ Tools.context_execute c args srv tr
           = (Normal
                (Tools.mkResult
                   ("Recent context:" ++ newline ++ newline
                      ++ String.concat newline items)%string
                   (Some (JArr xs))),
              EvFetch (recent_request c (context_tool_options args)) :: tr)).
Proof.
  intros Hc Hne Hall. split; intros args Hs.
  - pose proof (getTimeline_delivers_array _ _ _ _ _ _ Hs Hc) as Hrun.
    destruct (mapi_M_all Tools.format_observation is_Observation xs
                format_observation_typed Hall 0 srv
                (EvFetch (timeline_request c (timeline_tool_options args)) :: tr))
      as (items & Hitems & Hlen).
    exists items. split; [exact Hlen |].
    unfold Tools.timeline_execute. unfold timeline_tool_options in Hrun.
    rewrite (bind_run _ _ _ _ _ _ Hrun).
    unfold length_of at 1. unfold bind at 1, ret at 1.
    rewrite (is_zero_length xs Hne).
    unfold Array_map. rewrite (bind_run _ _ _ _ _ _ Hitems).
    reflexivity.
  - pose proof (getRecentContext_delivers_array _ _ _ _ _ _ Hs Hc) as Hrun.
    destruct (mapi_M_all Tools.format_context is_Observation xs
                format_context_typed Hall 0 srv
                (EvFetch (recent_request c (context_tool_options args)) :: tr))
      as (items & Hitems & Hlen).
    exists items. split; [exact Hlen |].
    unfold Tools.context_execute. unfold context_tool_options in Hrun.
    rewrite (bind_run _ _ _ _ _ _ Hrun).
    cbn [truthy negb]. unfold length_of. unfold bind at 1 2, ret at 1 2.
    rewrite (is_zero_length xs Hne).
    unfold Array_map. rewrite (bind_run _ _ _ _ _ _ Hitems).
    reflexivity.
Qed.

Lemma timeline_and_context_tools_digest_typed_observations_witness :
  exists items,
    List.length items = 1
    /\ fst (Tools.timeline_execute localhost (Tools.TimelineArgs.mk None None)
              (always (http_ok (JArr [sample_observation]))) [])
       = Normal
           (Tools.mkResult
              ("Timeline (1 observations):" ++ newline ++ newline
                 ++ String.concat newline items)%string
              (Some (JArr [sample_observation]))).
Proof.
  destruct (proj1 (timeline_and_context_tools_digest_typed_observations localhost
                     (always (http_ok (JArr [sample_observation]))) []
                     [sample_observation] (JArr [sample_observation])
                     (or_introl eq_refl)
                     ltac:(discriminate) eq_refl)
              (Tools.TimelineArgs.mk None None))
    as (items & Hlen & Hrun).
  - eexists. repeat split; reflexivity.
  - exists items. split; [exact Hlen | rewrite Hrun; reflexivity].
Defined.

(** X17. The tools let an exception out when the service answers a
    success with an object of another shape (no [results] or
    [observations] field, no [length] of 0): the client hands the
    object on, and the tool throws the TypeError of calling [map] on
    it. *)
Theorem tools_throw_on_object_body config c srv tr fields :
  is_zero (lookup "length" fields) = false ->
  (forall args,
      exposes "results" (JObj fields) = false ->
      succeeds_with
        (srv (requests_of tr)
           (search_request c (Tools.SearchArgs.query args)
              (search_tool_options config args))) (JObj fields) ->
      fst (Tools.search_execute config c args srv tr)
      = Throw (TypeError "results.map is not a function"))
  /\ (forall args,
      exposes "observations" (JObj fields) = false ->
      succeeds_with
        (srv (requests_of tr) (timeline_request c (timeline_tool_options args)))
        (JObj fields) ->
      fst (Tools.timeline_execute c args srv tr)
      = Throw (TypeError "timeline.map is not a function"))
  /\ (forall args,
      exposes "observations" (JObj fields) = false ->
      succeeds_with
        (srv (requests_of tr) (recent_request c (context_tool_options args)))
        (JObj fields) ->
      fst (Tools.context_execute c args srv tr)
      = Throw (TypeError "context.map is not a function")).
Proof.
  intros Hz. repeat split; intros args He Hs.
  - pose proof (search_delivers_object _ _ _ _ _ _ Hs He) as Hrun.
    unfold Tools.search_execute. unfold search_tool_options in Hrun.
    rewrite (bind_run _ _ _ _ _ _ Hrun).
    unfold length_of, bind, ret. rewrite Hz. reflexivity.
  - pose proof (getTimeline_delivers_object _ _ _ _ _ Hs He) as Hrun.
    unfold Tools.timeline_execute. unfold timeline_tool_options in Hrun.
    rewrite (bind_run _ _ _ _ _ _ Hrun).
    unfold length_of, bind, ret. rewrite Hz. reflexivity.
  - pose proof (getRecentContext_delivers_object _ _ _ _ _ Hs He) as Hrun.
    unfold Tools.context_execute. unfold context_tool_options in Hrun.
    rewrite (bind_run _ _ _ _ _ _ Hrun).
    cbn [truthy negb]. unfold length_of, bind, ret. rewrite Hz. reflexivity.
Qed.

Lemma tools_throw_on_object_body_witness :
  fst (Tools.search_execute Plugin.empty_config localhost
         (Tools.SearchArgs.mk "auth" None None)
         (always (http_ok error_envelope)) [])
  = Throw (TypeError "results.map is not a function").
Proof.
  apply (proj1 (tools_throw_on_object_body Plugin.empty_config localhost
                  (always (http_ok error_envelope)) []
                  [("error", JStr "index not ready")] eq_refl)
           (Tools.SearchArgs.mk "auth" None None) eq_refl).
  eexists. repeat split; reflexivity.
Defined.

(** ** Properties of the digest helpers *)

Lemma first_segment_stops sep d rest :
  has_char sep d = false ->
  first_segment sep (d ++ String sep rest) = d.
Proof.
  induction d as [| ch d IH]; simpl.
  - intros _. rewrite Ascii.eqb_refl. reflexivity.
  - intros H. apply orb_false_iff in H. destruct H as [Hch Hd].
    rewrite Hch, IH by exact Hd. reflexivity.
Qed.

Lemma first_segment_free sep s : has_char sep (first_segment sep s) = false.
Proof.
  induction s as [| ch s IH]; simpl; [reflexivity |].
  destruct (Ascii.eqb ch sep) eqn:E; simpl; [reflexivity |].
  rewrite E, IH. reflexivity.
Qed.

Lemma first_segment_whole sep s :
  has_char sep s = false -> first_segment sep s = s.
Proof.
  induction s as [| ch s IH]; simpl; [reflexivity |].
  intros H. apply orb_false_iff in H. destruct H as [Hch Hs].
  rewrite Hch, IH by exact Hs. reflexivity.
Qed.

(** X18. The date of a digest line is the part of [created_at] before
    its first T: for an ISO timestamp [d ++ "T" ++ time] it is [d], it
    never contains a T, and a value without T is shown whole. The
    fallback text is used only when [created_at] is absent or null: an
    empty string gives an empty date, and a value that is not a string
    makes the digest throw. *)
Theorem date_of_is_the_part_before_T name fallback srv tr :
  (forall d time,
      has_char "T" d = false ->
      date_of (Some (JStr (d ++ String "T" time))) name fallback srv tr
      = (Normal d, tr))
  /\ (forall s,
      exists d,
        date_of (Some (JStr s)) name fallback srv tr = (Normal d, tr)
        /\ has_char "T" d = false
        /\ prefix d s = true)
  /\ (forall s,
      has_char "T" s = false ->
      date_of (Some (JStr s)) name fallback srv tr = (Normal s, tr))
  /\ date_of None name fallback srv tr = (Normal fallback, tr)
  /\ date_of (Some JNull) name fallback srv tr = (Normal fallback, tr)
  /\ (forall z,
      date_of (Some (JNum z)) name fallback srv tr
      = (Throw (TypeError (name ++ "?.split is not a function")), tr)).
Proof.
  repeat split; intros; simpl; unfold ret.
  - rewrite first_segment_stops by assumption. reflexivity.
  - eexists. split; [reflexivity |]. split; [apply first_segment_free |].
    induction s as [| ch s IH]; simpl; [reflexivity |].
    destruct (Ascii.eqb ch "T"); simpl; [reflexivity |].
    destruct (ascii_dec ch ch); [exact IH | congruence].
  - rewrite first_segment_whole by assumption. reflexivity.
Qed.

Lemma date_of_is_the_part_before_T_witness :
  date_of (Some (JStr ("2025-01-02" ++ String "T" "10:00:00Z")))
    "obs.created_at" "unknown" (always (http_status 500)) []
  = (Normal "2025-01-02", []).
Proof.
  apply (proj1 (date_of_is_the_part_before_T "obs.created_at" "unknown"
                  (always (http_status 500)) []) "2025-01-02" "10:00:00Z").
  reflexivity.
Defined.

Lemma slice0_all n s : String.length s <= n -> slice0 n s = s.
Proof.
  unfold slice0. revert n. induction s as [| ch s IH]; intros [| n] H; simpl in *;
    try reflexivity; try lia.
  rewrite IH by lia. reflexivity.
Qed.

Lemma append_empty s : (s ++ "")%string = s.
Proof. induction s as [| ch s IH]; simpl; [reflexivity | rewrite IH; reflexivity]. Qed.

Lemma length_append s t :
  String.length (s ++ t) = String.length s + String.length t.
Proof. induction s as [| ch s IH]; simpl; [reflexivity | rewrite IH; reflexivity]. Qed.

(** X19. The preview of a content string in a digest: a content of at
    most [n] characters is shown whole, a longer one as its first [n]
    characters followed by three dots, so a preview never has more than
    [n + 3] characters; an absent or null content gives an empty
    preview. *)
Theorem preview_is_bounded name n srv tr :
  (forall s,
      exists p,
        slice_of (Some (JStr s)) name n srv tr = (Normal p, tr)
        /\ (String.length s <= n -> (p ++ ellipsis_of (Some (JStr s)) n)%string = s)
        /\ (n < String.length s ->
            (p ++ ellipsis_of (Some (JStr s)) n)%string
            = (slice0 n s ++ "...")%string)
        /\ String.length (p ++ ellipsis_of (Some (JStr s)) n) <= n + 3)
  /\ (slice_of None name n srv tr = (Normal EmptyString, tr)
      /\ ellipsis_of None n = EmptyString)
  /\ (slice_of (Some JNull) name n srv tr = (Normal EmptyString, tr)
      /\ ellipsis_of (Some JNull) n = EmptyString).
Proof.
  split; [| repeat split].
  intros s. exists (slice0 n s). split; [reflexivity |].
  unfold ellipsis_of. repeat split.
  - intros H. apply Nat.ltb_ge in H. rewrite H.
    apply Nat.ltb_ge in H. rewrite slice0_all by exact H.
    apply append_empty.
  - intros H. apply Nat.ltb_lt in H. rewrite H. reflexivity.
  - rewrite length_append, slice0_length.
    destruct (n <? String.length s)%nat; simpl; lia.
Qed.

Lemma preview_is_bounded_witness :
  exists p,
    slice_of (Some (JStr long_text)) "obs.content" 100
      (always (http_status 500)) []
    = (Normal p, [])
    /\ (p ++ ellipsis_of (Some (JStr long_text)) 100)%string
       = (slice0 100 long_text ++ "...")%string.
Proof.
  destruct (proj1 (preview_is_bounded "obs.content" 100
                     (always (http_status 500)) []) long_text)
    as (p & Hp & _ & Hlong & _).
  exists p. split; [exact Hp |]. apply Hlong.
  apply Nat.ltb_lt. reflexivity.
Defined.

Lemma Array_join_strings sep xs :
  Array_join sep (map JStr xs) = String.concat sep xs.
Proof.
  unfold Array_join. f_equal.
  induction xs as [| x xs IH]; simpl; [reflexivity | rewrite IH; reflexivity].
Qed.

(** X20. The concepts and files of a digest entry: a list of strings is
    shown with its members separated by a comma and a space; the word
    "none" stands for an absent or null list only, an empty list gives
    an empty text; a value that is not an array makes the digest
    throw. *)
Theorem joined_of_lists_members name srv tr :
  (forall xs,
      joined_of (Some (JArr (map JStr xs))) name srv tr
      = (Normal (String.concat ", " xs), tr))
  /\ joined_of (Some (JArr [])) name srv tr = (Normal EmptyString, tr)
  /\ joined_of None name srv tr = (Normal "none", tr)
  /\ joined_of (Some JNull) name srv tr = (Normal "none", tr)
  /\ (forall s,
      joined_of (Some (JStr s)) name srv tr
      = (Throw (TypeError (name ++ "?.join is not a function")), tr)).
Proof.
  repeat split; intros; simpl; unfold ret; try reflexivity.
  rewrite Array_join_strings. reflexivity.
Qed.
